(** * OSRS-Bot-COLOR: bot lifecycle and telemetry client

    A shallow embedding of [src/model/bot.py] (classes [BotThread],
    [BotStatus], [Bot]) and of [src/utilities/api/morg_http_client.py]
    (classes [SocketError], [MorgHTTPSocket]).

    Python methods mutate [self] and may raise; the mutations made before
    a [raise] stay.  Methods are therefore modelled in a state monad whose
    result is an [outcome]: the state is returned on every outcome, also
    on an exception. *)

From Stdlib Require Import ZArith QArith List String Ascii Bool Lia.
From Stdlib Require Import DecimalString.
Import ListNotations.

Local Open Scope string_scope.
Local Open Scope list_scope.

(** ** Exceptions and outcomes *)

(** The exception classes that the two modules raise, catch or let
    through. *)
Inductive exn : Type :=
| AttributeError (msg : string)
| TypeError (msg : string)
| ValueError (msg : string)
| RuntimeError (msg : string)
| KeyError (key : string)
| StopIteration
| WindowInitializationError (msg : string)
| SocketError (error_message endpoint : string)
| ConnectionError
| RequestFailure (msg : string)
| JSONDecodeError.

(** [OutOfFuel] stands for a call that does not come back: a polling
    loop of the telemetry client that has used up its rounds, or a
    [join()] on a worker that never ends. *)
Inductive outcome (A : Type) : Type :=
| Return (a : A)
| Raise (e : exn)
| OutOfFuel.

Arguments Return {A} a.
Arguments Raise {A} e.
Arguments OutOfFuel {A}.

(** ** The state-and-exception monad *)

Section Monad.
Context {S : Type}.

Definition M (A : Type) : Type := S -> outcome A * S.

Definition ret {A} (a : A) : M A := fun s => (Return a, s).

Definition bind {A B} (c : M A) (k : A -> M B) : M B :=
  fun s =>
    match c s with
    | (Return a, s') => k a s'
    | (Raise e, s') => (Raise e, s')
    | (OutOfFuel, s') => (OutOfFuel, s')
    end.

Definition raise {A} (e : exn) : M A := fun s => (Raise e, s).

Definition diverge {A} : M A := fun s => (OutOfFuel, s).

Definition get : M S := fun s => (Return s, s).

Definition modify (f : S -> S) : M unit := fun s => (Return tt, f s).

(** [try: c except E as e: h e]: the handler says which exceptions it
    takes ([Some]); the others go on to the caller. *)
Definition try_except {A} (c : M A) (h : exn -> option (M A)) : M A :=
  fun s =>
    match c s with
    | (Raise e, s') =>
        match h e with
        | Some k => k s'
        | None => (Raise e, s')
        end
    | r => r
    end.
End Monad.

Declare Scope py_scope.
Delimit Scope py_scope with py.
Notation "x <- c ;; k" := (bind c (fun x => k))
  (at level 61, c at next level, right associativity) : py_scope.
Notation "c ;; k" := (bind c (fun _ => k))
  (at level 61, right associativity) : py_scope.
Local Open Scope py_scope.

(** Comparison of Python numbers, on the rationals they denote. *)
Definition Qlt_bool (x y : Q) : bool := negb (Qle_bool y x).

(** ** [bot.py] *)

(** [class BotStatus(Enum)] *)
Inductive BotStatus : Type :=
| RUNNING | PAUSED | STOPPED | CONFIGURING | CONFIGURED.

Definition BotStatus_eqb (a b : BotStatus) : bool :=
  match a, b with
  | RUNNING, RUNNING | PAUSED, PAUSED | STOPPED, STOPPED
  | CONFIGURING, CONFIGURING | CONFIGURED, CONFIGURED => true
  | _, _ => false
  end.

(** The exception class that [BotThread.stop] injects. *)
Inductive exc_class : Type := SystemExit.

(** What the outside world sees of a run, in the order it happens: the
    calls received by the controller (with the value of the attribute the
    controller would read back at that moment), the calls on the window,
    the operations on the worker thread, the calls of the interpreter's
    [PyThreadState_SetAsyncExc] (second argument [None] for the null
    pointer that revokes a pending exception) and the lines printed. *)
Inductive event : Type :=
| Ctl_clear_log
| Ctl_update_log (msg : string) (overwrite : bool)
| Ctl_update_progress (seen : Q)
| Ctl_update_status (seen : BotStatus)
| Win_focus
| Time_sleep (seconds : Q)
| Win_initialize
| Thread_start (oid : nat)
| Thread_join (oid : nat)
| SetAsyncExc (thread_id : option Z) (exc : option exc_class)
| Print (line : string).

(** A [BotThread] object: [oid] is its identity ([thread is self]),
    [thread_id_attr] the attribute [_thread_id] when the object has one
    ([hasattr]); nothing in the module sets it. *)
Record BotThreadObj : Type := mkBotThread {
  oid : nat;
  daemon : bool;
  started : bool;
  thread_id_attr : option Z
}.

(** The attributes of a [Bot] that the lifecycle reads and writes.  The
    controller is the one attached by [set_controller]; its four callbacks
    are recorded as events. *)
Record BotObj : Type := mkBot {
  options_set : bool;
  progress : Q;
  status : BotStatus;
  thread : option BotThreadObj
}.

(** What the lifecycle takes from its surroundings at a call:
    [system] is [platform.system()]; [threading_active] is the table
    [threading._active] (thread id, thread object); [async_res] is the
    number returned by the first call of [PyThreadState_SetAsyncExc];
    [win_focus] and [win_initialize] say whether the window's [focus()]
    and [initialize()] return ([None]) or raise; [new_oid] is the identity
    of the next thread object created; [worker_ends] says whether the
    worker thread ends, on its own or by the exception injected into it,
    so that a [join()] on it returns. *)
Record Env : Type := mkEnv {
  system : string;
  threading_active : list (Z * nat);
  async_res : Z;
  win_focus : option exn;
  win_initialize : option exn;
  new_oid : nat;
  worker_ends : bool
}.

(** The state of a run: the bot and the events so far, oldest first. *)
Record Run : Type := mkRun {
  bot : BotObj;
  trace : list event
}.

Definition emit (e : event) : M (S := Run) unit :=
  modify (fun r => mkRun (bot r) (trace r ++ [e])).

Definition self : M (S := Run) BotObj :=
  r <- get ;; ret (bot r).

Definition set_self (f : BotObj -> BotObj) : M (S := Run) unit :=
  modify (fun r => mkRun (f (bot r)) (trace r)).

Definition with_progress (p : Q) (b : BotObj) : BotObj :=
  mkBot (options_set b) p (status b) (thread b).

Definition with_status (s : BotStatus) (b : BotObj) : BotObj :=
  mkBot (options_set b) (progress b) s (thread b).

Definition with_thread (t : option BotThreadObj) (b : BotObj) : BotObj :=
  mkBot (options_set b) (progress b) (status b) t.

Module BotThread.

(** [BotThread.__get_id] *)
Definition get_id (env : Env) (t : BotThreadObj) : option Z :=
  match thread_id_attr t with
  | Some i => Some i
  | None =>
      match find (fun e => Nat.eqb (snd e) (oid t)) (threading_active env) with
      | Some e => Some (fst e)
      | None => None
      end
  end.

(** The two branches of [stop] after the platform test: the calls of
    the interpreter primitive and the check of its result. *)
Definition inject (env : Env) (thread_id : option Z) : M (S := Run) unit :=
  emit (SetAsyncExc thread_id (Some SystemExit)) ;;
  if (async_res env >? 1)%Z then
    emit (SetAsyncExc thread_id None) ;;
    emit (Print "Exception raise failure")
  else ret tt.

(** [BotThread.stop].  On Windows the id goes to the foreign function
    as it is (ctypes passes [None] as a null argument); on Linux it is
    wrapped by [ctypes.c_long], which raises [TypeError] on [None]. *)
Definition stop (env : Env) (t : BotThreadObj) : M (S := Run) unit :=
  let thread_id := get_id env t in
  if String.eqb (system env) "Windows" then
    inject env thread_id
  else if String.eqb (system env) "Linux" then
    match thread_id with
    | Some i => inject env (Some i)
    | None => raise (TypeError "an integer is required (got type NoneType)")
    end
  else ret tt.

(** [threading.Thread.join]: refused on a thread that was not started;
    otherwise the call is made and comes back once the worker has ended.
    On a worker that never ends it does not come back. *)
Definition join (env : Env) (t : BotThreadObj) : M (S := Run) unit :=
  if started t then
    emit (Thread_join (oid t)) ;;
    if worker_ends env then ret tt else diverge
  else raise (RuntimeError "cannot join thread before it is started").

End BotThread.

Module Bot.

(** [Bot.log_msg] *)
Definition log_msg (msg : string) (overwrite : bool) : M (S := Run) unit :=
  emit (Ctl_update_log msg overwrite).

(** [Bot.clear_log] *)
Definition clear_log : M (S := Run) unit := emit Ctl_clear_log.

(** [Bot.set_status] *)
Definition set_status (s : BotStatus) : M (S := Run) unit :=
  set_self (with_status s) ;;
  b <- self ;;
  emit (Ctl_update_status (status b)).

(** [Bot.reset_progress] *)
Definition reset_progress : M (S := Run) unit :=
  set_self (with_progress 0) ;;
  b <- self ;;
  emit (Ctl_update_progress (progress b)).

(** [Bot.update_progress] *)
Definition update_progress (p : Q) : M (S := Run) unit :=
  let p' := if Qlt_bool p 0 then 0%Q
            else if Qlt_bool 1 p then 1%Q
            else p in
  set_self (with_progress p') ;;
  b <- self ;;
  emit (Ctl_update_progress (progress b)).

(** A call on the window: returns or raises, as the surroundings say. *)
Definition win_call (e : event) (r : option exn) : M (S := Run) unit :=
  emit e ;;
  match r with
  | None => ret tt
  | Some x => raise x
  end.

(** [Bot.__initialize_window] *)
Definition initialize_window (env : Env) : M (S := Run) unit :=
  win_call Win_focus (win_focus env) ;;
  emit (Time_sleep (1 # 2)) ;;
  win_call Win_initialize (win_initialize env).

(** The part of [play] after the two early returns. *)
Definition launch (env : Env) : M (S := Run) unit :=
  reset_progress ;;
  set_status RUNNING ;;
  set_self (with_thread (Some (mkBotThread (new_oid env) false false None))) ;;
  set_self (with_thread (Some (mkBotThread (new_oid env) true false None))) ;;
  set_self (with_thread (Some (mkBotThread (new_oid env) true true None))) ;;
  emit (Thread_start (new_oid env)).

(** [Bot.play].  The [return] inside the [except] clause is kept by
    running the rest of the body inside the [try] continuation only
    when the window call went through. *)
Definition play (env : Env) : M (S := Run) unit :=
  b <- self ;;
  if BotStatus_eqb (status b) STOPPED then
    clear_log ;;
    log_msg "Starting bot..." false ;;
    if negb (options_set b) then
      log_msg "Options not set. Please set options before starting." false
    else
      ok <- try_except (initialize_window env ;; ret true)
              (fun e => match e with
                        | WindowInitializationError m =>
                            Some (log_msg m false ;; ret false)
                        | _ => None
                        end) ;;
      if ok then launch env else ret tt
  else if BotStatus_eqb (status b) RUNNING then
    log_msg "Bot is already running." false
  else ret tt.

(** [Bot.stop] *)
Definition stop (env : Env) : M (S := Run) unit :=
  log_msg "Stopping script." false ;;
  b <- self ;;
  if negb (BotStatus_eqb (status b) STOPPED) then
    match thread b with
    | None =>
        raise (AttributeError "'NoneType' object has no attribute 'stop'")
    | Some t =>
        BotThread.stop env t ;;
        BotThread.join env t ;;
        set_status STOPPED
    end
  else
    log_msg "Bot is already stopped." false.

End Bot.

(** Running a method on a bot from an empty trace. *)
Definition run_on {A} (c : M (S := Run) A) (b : BotObj) : outcome A * Run :=
  c (mkRun b []).

(** ** [morg_http_client.py] *)

Local Set Warnings "-register-all".

(** The values that the client handles: what [response.json()] yields
    (the sidecar reports whole numbers, so JSON numbers are integers
    here) and the tuples that some getters build. *)
Inductive value : Type :=
| VNone
| VBool (b : bool)
| VInt (z : Z)
| VStr (s : string)
| VList (l : list value)
| VTuple (l : list value)
| VDict (items : list (string * value)).

(** The result of [requests.get]: a response, of which the client reads
    [status_code] and [json()] ([None] when the body is not JSON and
    [json()] raises), or an exception. *)
Inductive http_outcome : Type :=
| Responded (status_code : Z) (json : option value)
| Failed (e : exn).

(** What the client has done to the outside: the requests made, with
    what came back, the lines printed and the number of clock readings
    taken. *)
Record World : Type := mkWorld {
  http_log : list (string * http_outcome);
  stdout : list string;
  clock_reads : nat
}.

(** [item_id] arguments: [Union[List[int], int]]. *)
Inductive item_ids : Type :=
| OneId (id : Z)
| ManyIds (ids : list Z).

(** What the client takes from its surroundings: [net n url] is what the
    [n]-th request of the run gets when sent to [url]; [clock n] is the
    [n]-th reading of [time.time()]; [int_of_str] is the builtin [int] on
    a [str] ([None] for [ValueError]); the rest are the constants of the
    module [animation_ids], which is not part of these sources. *)
Record Outside : Type := mkOutside {
  net : nat -> string -> http_outcome;
  clock : nat -> Q;
  int_of_str : string -> option Z;
  IDLE : Z;
  WOODCUTTING : list Z;
  MINING : list Z;
  SMITHING : list Z;
  FISHING : list Z;
  FLETCHING : list Z;
  COOKING : list Z;
  MAGIC : list Z;
  HUNTER : list Z;
  HERBLORE : list Z;
  GEM_CUTTING : list Z;
  FARMING : list Z;
  CRAFTING : list Z
}.

(** *** Operations of the language on values *)

Definition obind {A B} (c : outcome A) (k : A -> outcome B) : outcome B :=
  match c with
  | Return a => k a
  | Raise e => Raise e
  | OutOfFuel => OutOfFuel
  end.

Notation "x <~ c ;; k" := (obind c (fun x => k))
  (at level 61, c at next level, right associativity) : py_scope.

Definition lift {S A} (o : outcome A) : M (S := S) A := fun s => (o, s).

(** [str(n)] for an integer. *)
Definition str_of_Z (n : Z) : string := NilZero.string_of_int (Z.to_int n).

Fixpoint lookup (k : string) (items : list (string * value)) : option value :=
  match items with
  | [] => None
  | (k', v) :: rest => if String.eqb k' k then Some v else lookup k rest
  end.

(** [v[key]] for a string key. *)
Definition getitem (v : value) (key : string) : outcome value :=
  match v with
  | VDict items =>
      match lookup key items with
      | Some x => Return x
      | None => Raise (KeyError key)
      end
  | VList _ | VTuple _ | VStr _ =>
      Raise (TypeError "indices must be integers or slices, not str")
  | VNone | VBool _ | VInt _ =>
      Raise (TypeError "object is not subscriptable")
  end.

(** [int(v)] *)
Definition py_int (o : Outside) (v : value) : outcome Z :=
  match v with
  | VInt z => Return z
  | VBool b => Return (if b then 1 else 0)%Z
  | VStr s =>
      match int_of_str o s with
      | Some z => Return z
      | None => Raise (ValueError "invalid literal for int() with base 10")
      end
  | VNone | VList _ | VTuple _ | VDict _ =>
      Raise (TypeError "int() argument must be a string, a bytes-like object or a real number")
  end.

(** [v == n] for an integer [n]: [True] and [False] equal 1 and 0. *)
Definition eq_int (v : value) (n : Z) : bool :=
  match v with
  | VInt z => Z.eqb z n
  | VBool b => Z.eqb (if b then 1 else 0) n
  | _ => false
  end.

(** [v == s] for a string [s]. *)
Definition eq_str (v : value) (s : string) : bool :=
  match v with
  | VStr t => String.eqb t s
  | _ => false
  end.

(** [v in l] for a list of integers. *)
Definition in_ints (v : value) (l : list Z) : bool := existsb (eq_int v) l.

Fixpoint chars (s : string) : list value :=
  match s with
  | EmptyString => []
  | String a r => VStr (String a EmptyString) :: chars r
  end.

(** The elements that [for x in v] goes through. *)
Definition iter (v : value) : outcome (list value) :=
  match v with
  | VList l | VTuple l => Return l
  | VDict items => Return (map (fun kv => VStr (fst kv)) items)
  | VStr s => Return (chars s)
  | VNone | VBool _ | VInt _ => Raise (TypeError "object is not iterable")
  end.

(** The elements of [v[1:]]. *)
Definition slice_from_1 (v : value) : outcome (list value) :=
  match v with
  | VList l | VTuple l => Return (tl l)
  | VStr s => Return (tl (chars s))
  | VDict _ => Raise (TypeError "unhashable type: 'slice'")
  | VNone | VBool _ | VInt _ => Raise (TypeError "object is not subscriptable")
  end.

(** [s.split(sep)] for a separator of one character. *)
Fixpoint split_on (sep : ascii) (s : string) : list string :=
  match s with
  | EmptyString => [EmptyString]
  | String a r =>
      if Ascii.eqb a sep then EmptyString :: split_on sep r
      else match split_on sep r with
           | h :: t => String a h :: t
           | [] => [String a EmptyString]
           end
  end.

(** [v.split("/")] *)
Definition split_slash (v : value) : outcome (list string) :=
  match v with
  | VStr s => Return (split_on "/"%char s)
  | _ => Raise (AttributeError "object has no attribute 'split'")
  end.

Definition is_upper (a : ascii) : bool :=
  (Nat.leb 65 (nat_of_ascii a) && Nat.leb (nat_of_ascii a) 90)%bool.

Definition is_lower (a : ascii) : bool :=
  (Nat.leb 97 (nat_of_ascii a) && Nat.leb (nat_of_ascii a) 122)%bool.

Definition lower_char (a : ascii) : ascii :=
  if is_upper a then ascii_of_nat (nat_of_ascii a + 32) else a.

Definition upper_char (a : ascii) : ascii :=
  if is_lower a then ascii_of_nat (nat_of_ascii a - 32) else a.

(** [s.lower()], on the ASCII letters. *)
Fixpoint lower (s : string) : string :=
  match s with
  | EmptyString => EmptyString
  | String a r => String (lower_char a) (lower r)
  end.

(** [s.capitalize()], on the ASCII letters. *)
Definition capitalize (s : string) : string :=
  match s with
  | EmptyString => EmptyString
  | String a r => String (upper_char a) (lower r)
  end.

(** [SocketError.get_error], which is also [str(e)]. *)
Definition get_error (error_message endpoint : string) : string :=
  error_message ++ " endpoint: '" ++ endpoint ++ "'".

Module MorgHTTPSocket.

(** The attributes set by [__init__]. *)
Definition base_endpoint : string := "http://localhost:8081/".
Definition inv_endpoint : string := "inv".
Definition stats_endpoint : string := "stats".
Definition equip_endpoint : string := "equip".
Definition events_endpoint : string := "events".
Definition timeout : Z := 1.

Section Client.
Variable o : Outside.

Definition print (line : string) : M (S := World) unit :=
  modify (fun w => mkWorld (http_log w) (stdout w ++ [line]) (clock_reads w)).

(** [time.time()] *)
Definition time_time : M (S := World) Q :=
  w <- get ;;
  modify (fun w => mkWorld (http_log w) (stdout w) (Datatypes.S (clock_reads w))) ;;
  ret (clock o (clock_reads w)).

(** [requests.get(url, timeout=...)]: the request is logged with what
    came back. *)
Definition requests_get (url : string) (timeout : Z)
  : M (S := World) (Z * option value) :=
  w <- get ;;
  let r := net o (List.length (http_log w)) url in
  modify (fun w => mkWorld (http_log w ++ [(url, r)]) (stdout w) (clock_reads w)) ;;
  match r with
  | Responded code body => ret (code, body)
  | Failed e => raise e
  end.

(** [MorgHTTPSocket.__do_get] *)
Definition do_get (endpoint : string) : M (S := World) value :=
  response <-
    try_except (requests_get (base_endpoint ++ endpoint) timeout)
      (fun e => match e with
                | ConnectionError =>
                    Some (raise (SocketError "Unable to reach socket" endpoint))
                | _ => None
                end) ;;
  let (status_code, json) := response in
  if negb (status_code =? 200)%Z then
    if (status_code =? 204)%Z then
      raise (SocketError
               ("Endpoint not available, make sure you are fully logged in, status code: "
                  ++ str_of_Z status_code) endpoint)
    else
      raise (SocketError
               ("Unable to reach socket, status code: " ++ str_of_Z status_code)
               endpoint)
  else
    match json with
    | Some v => ret v
    | None => raise JSONDecodeError
    end.

(** The opening of every getter:
    [try: data = self.__do_get(endpoint)]
    [except SocketError as e: print(e); return None].
    [None] stands for the early [return None]. *)
Definition fetch (endpoint : string) : M (S := World) (option value) :=
  try_except (data <- do_get endpoint ;; ret (Some data))
    (fun e => match e with
              | SocketError m ep => Some (print (get_error m ep) ;; ret None)
              | _ => None
              end).

(** A getter that fetches once and then works on the data. *)
Definition fetch_then (endpoint : string) (k : value -> M (S := World) value)
  : M (S := World) value :=
  d <- fetch endpoint ;;
  match d with
  | None => ret VNone
  | Some data => k data
  end.

(** [int(data[key])] *)
Definition int_at (data : value) (key : string) : outcome value :=
  v <~ getitem data key ;;
  n <~ py_int o v ;;
  Return (VInt n).

(** [int(data[k1][k2])] *)
Definition int_at2 (data : value) (k1 k2 : string) : outcome value :=
  v <~ getitem data k1 ;;
  int_at v k2.

(** [MorgHTTPSocket.get_hitpoints] *)
Definition get_hitpoints : M (S := World) value :=
  fetch_then events_endpoint (fun data => lift (
    hitpoints_data <~ getitem data "health" ;;
    parts <~ split_slash hitpoints_data ;;
    match parts with
    | [cur_hp; max_hp] =>
        c <~ py_int o (VStr cur_hp) ;;
        m <~ py_int o (VStr max_hp) ;;
        Return (VTuple [VInt c; VInt m])
    | _ => Raise (ValueError "wrong number of values to unpack (expected 2)")
    end)).

(** [MorgHTTPSocket.get_run_energy] *)
Definition get_run_energy : M (S := World) value :=
  fetch_then events_endpoint (fun data => lift (int_at data "run energy")).

(** [MorgHTTPSocket.get_animation] *)
Definition get_animation : M (S := World) value :=
  fetch_then events_endpoint (fun data => lift (int_at data "animation")).

(** [MorgHTTPSocket.get_animation_id] *)
Definition get_animation_id : M (S := World) value :=
  fetch_then events_endpoint (fun data => lift (int_at data "animation pose")).

(** The loop shared by the [get_is_player_*] getters:
    [while time.time() - start_time < 1:] fetch, and [return False]
    when [leave data] holds; [return True] when the second is over. *)
Fixpoint poll (fuel : nat) (start_time : Q) (leave : value -> outcome bool)
  : M (S := World) value :=
  match fuel with
  | O => diverge
  | Datatypes.S fuel' =>
      now <- time_time ;;
      if Qlt_bool (now - start_time) 1 then
        d <- fetch events_endpoint ;;
        match d with
        | None => ret VNone
        | Some data =>
            b <- lift (leave data) ;;
            if b then ret (VBool false) else poll fuel' start_time leave
        end
      else ret (VBool true)
  end.

Definition poll_second (fuel : nat) (leave : value -> outcome bool)
  : M (S := World) value :=
  start_time <- time_time ;;
  poll fuel start_time leave.

(** [data["animation"] not in ids] *)
Definition animation_not_in (ids : list Z) (data : value) : outcome bool :=
  a <~ getitem data "animation" ;;
  Return (negb (in_ints a ids)).

(** [MorgHTTPSocket.get_is_player_idle] *)
Definition get_is_player_idle (fuel : nat) : M (S := World) value :=
  poll_second fuel (fun data =>
    a <~ getitem data "animation" ;;
    if negb (eq_int a (IDLE o)) then Return true
    else
      p <~ getitem data "animation pose" ;;
      Return (negb (in_ints p [808; 813]%Z))).

(** [MorgHTTPSocket.get_is_player_woodcutting] and its eleven
    siblings. *)
Definition get_is_player_woodcutting (fuel : nat) :=
  poll_second fuel (animation_not_in (WOODCUTTING o)).
Definition get_is_player_mining (fuel : nat) :=
  poll_second fuel (animation_not_in (MINING o)).
Definition get_is_player_smithing (fuel : nat) :=
  poll_second fuel (animation_not_in (SMITHING o)).
Definition get_is_player_fishing (fuel : nat) :=
  poll_second fuel (animation_not_in (FISHING o)).
Definition get_is_player_fletching (fuel : nat) :=
  poll_second fuel (animation_not_in (FLETCHING o)).
Definition get_is_player_cooking (fuel : nat) :=
  poll_second fuel (animation_not_in (COOKING o)).
Definition get_is_player_casting_magic (fuel : nat) :=
  poll_second fuel (animation_not_in (MAGIC o)).
Definition get_is_player_hunting (fuel : nat) :=
  poll_second fuel (animation_not_in (HUNTER o)).
Definition get_is_player_doing_herblore (fuel : nat) :=
  poll_second fuel (animation_not_in (HERBLORE o)).
Definition get_is_player_gem_cutting (fuel : nat) :=
  poll_second fuel (animation_not_in (GEM_CUTTING o)).
Definition get_is_player_farming (fuel : nat) :=
  poll_second fuel (animation_not_in (FARMING o)).
Definition get_is_player_crafting (fuel : nat) :=
  poll_second fuel (animation_not_in (CRAFTING o)).

(** [next(int(i[field]) for i in entries if i["stat"] == skill)] *)
Fixpoint next_stat (field skill : string) (entries : list value) : outcome Z :=
  match entries with
  | [] => Raise StopIteration
  | i :: rest =>
      s <~ getitem i "stat" ;;
      if eq_str s skill then
        v <~ getitem i field ;;
        py_int o v
      else next_stat field skill rest
  end.

(** The body shared by [get_skill_level], [get_skill_xp] and
    [get_skill_xp_gained]; they differ in the field read and in the
    wording of the message. *)
Definition skill_getter (field complaint skill : string) : M (S := World) value :=
  let skill := capitalize (lower skill) in
  fetch_then stats_endpoint (fun data =>
    try_except
      (level <- lift (entries <~ slice_from_1 data ;;
                      next_stat field skill entries) ;;
       ret (VInt level))
      (fun e => match e with
                | StopIteration =>
                    Some (print (complaint ++ skill) ;; ret VNone)
                | _ => None
                end)).

(** [MorgHTTPSocket.get_skill_level] *)
Definition get_skill_level (skill : string) : M (S := World) value :=
  skill_getter "level" "Invalid stat name: " skill.

(** [MorgHTTPSocket.get_skill_xp] *)
Definition get_skill_xp (skill : string) : M (S := World) value :=
  skill_getter "xp" "Invalid stat name: " skill.

(** [MorgHTTPSocket.get_skill_xp_gained] *)
Definition get_skill_xp_gained (skill : string) : M (S := World) value :=
  skill_getter "xp gained" "Invalid skill name: " skill.

(** [MorgHTTPSocket.wait_til_gained_xp]: the loop. *)
Fixpoint wait_xp (fuel : nat) (skill : string) (starting_xp : Z) (stop_time : Q)
  : M (S := World) value :=
  match fuel with
  | O => diverge
  | Datatypes.S fuel' =>
      now <- time_time ;;
      if Qlt_bool now stop_time then
        d <- fetch stats_endpoint ;;
        match d with
        | None => ret VNone
        | Some data =>
            final_xp <- lift (entries <~ slice_from_1 data ;;
                              next_stat "xp" skill entries) ;;
            if (final_xp >? starting_xp)%Z then ret (VInt final_xp)
            else (* time.sleep(0.2): the time that passes is the clock's *)
              wait_xp fuel' skill starting_xp stop_time
        end
      else ret VNone
  end.

(** [MorgHTTPSocket.wait_til_gained_xp] *)
Definition wait_til_gained_xp (fuel : nat) (skill : string) (timeout : Z)
  : M (S := World) value :=
  let skill := capitalize (lower skill) in
  starting_xp <- get_skill_xp skill ;;
  match starting_xp with
  | VNone =>
      print "Failed to get starting xp." ;;
      ret VNone
  | VInt xp0 =>
      now <- time_time ;;
      wait_xp fuel skill xp0 (now + inject_Z timeout)
  | _ => (* not reached: get_skill_xp returns an int or None *)
      raise (TypeError "'>' not supported between instances")
  end.

(** [MorgHTTPSocket.get_game_tick] *)
Definition get_game_tick : M (S := World) value :=
  fetch_then events_endpoint (fun data => lift (int_at data "game tick")).

(** [MorgHTTPSocket.get_player_position] *)
Definition get_player_position : M (S := World) value :=
  fetch_then events_endpoint (fun data => lift (
    x <~ int_at2 data "worldPoint" "x" ;;
    y <~ int_at2 data "worldPoint" "y" ;;
    z <~ int_at2 data "worldPoint" "plane" ;;
    Return (VTuple [x; y; z]))).

(** [MorgHTTPSocket.get_player_region_data] *)
Definition get_player_region_data : M (S := World) value :=
  fetch_then events_endpoint (fun data => lift (
    x <~ int_at2 data "worldPoint" "regionX" ;;
    y <~ int_at2 data "worldPoint" "regionY" ;;
    z <~ int_at2 data "worldPoint" "regionID" ;;
    Return (VTuple [x; y; z]))).

(** [MorgHTTPSocket.get_camera_position] *)
Definition get_camera_position : M (S := World) value :=
  fetch_then events_endpoint (fun data => lift (getitem data "camera")).

(** [MorgHTTPSocket.get_mouse_position] *)
Definition get_mouse_position : M (S := World) value :=
  fetch_then events_endpoint (fun data => lift (
    x <~ int_at2 data "mouse" "x" ;;
    y <~ int_at2 data "mouse" "y" ;;
    Return (VTuple [x; y]))).

(** [MorgHTTPSocket.get_interaction_code] *)
Definition get_interaction_code : M (S := World) value :=
  fetch_then events_endpoint (fun data => lift (getitem data "interacting code")).

(** [MorgHTTPSocket.get_is_in_combat] *)
Definition get_is_in_combat : M (S := World) value :=
  fetch_then events_endpoint (fun data => lift (
    res <~ getitem data "npc name" ;;
    Return (VBool (negb (eq_str res "null"))))).

(** [MorgHTTPSocket.get_npc_hitpoints] *)
Definition get_npc_hitpoints : M (S := World) value :=
  fetch_then events_endpoint (fun data => lift (int_at data "npc health ")).

(** [any(slot["id"] == item_id for slot in slots)] *)
Fixpoint any_id (item_id : Z) (slots : list value) : outcome bool :=
  match slots with
  | [] => Return false
  | slot :: rest =>
      i <~ getitem slot "id" ;;
      if eq_int i item_id then Return true else any_id item_id rest
  end.

(** [MorgHTTPSocket.get_if_item_in_inv] *)
Definition get_if_item_in_inv (item_id : Z) : M (S := World) value :=
  fetch_then inv_endpoint (fun data => lift (
    slots <~ iter data ;;
    b <~ any_id item_id slots ;;
    Return (VBool b))).

(** [[f(i, slot) for i, slot in enumerate(slots) if keep(slot["id"])]],
    from index [i]. *)
Fixpoint select_slots (keep : value -> bool) (f : Z -> value -> outcome value)
                      (i : Z) (slots : list value) : outcome (list value) :=
  match slots with
  | [] => Return []
  | slot :: rest =>
      id <~ getitem slot "id" ;;
      if keep id then
        x <~ f i slot ;;
        xs <~ select_slots keep f (i + 1)%Z rest ;;
        Return (x :: xs)
      else select_slots keep f (i + 1)%Z rest
  end.

(** [MorgHTTPSocket.get_inv_item_indices] *)
Definition get_inv_item_indices (id : item_ids) : M (S := World) value :=
  fetch_then inv_endpoint (fun data => lift (
    slots <~ iter data ;;
    let keep := match id with
                | OneId n => fun v => eq_int v n
                | ManyIds l => fun v => in_ints v l
                end in
    xs <~ select_slots keep (fun i _ => Return (VInt i)) 0%Z slots ;;
    Return (VList xs))).

(** [MorgHTTPSocket.find_item_in_inv] *)
Definition find_item_in_inv (item_id : Z) : M (S := World) value :=
  fetch_then inv_endpoint (fun data => lift (
    slots <~ iter data ;;
    xs <~ select_slots (fun v => eq_int v item_id)
            (fun i slot => q <~ getitem slot "quantity" ;;
                           Return (VTuple [VInt i; q]))
            0%Z slots ;;
    Return (VList xs))).

(** [[e["id"] for e in slots]] *)
Fixpoint ids_of (slots : list value) : outcome (list value) :=
  match slots with
  | [] => Return []
  | e :: rest =>
      i <~ getitem e "id" ;;
      xs <~ ids_of rest ;;
      Return (i :: xs)
  end.

(** [MorgHTTPSocket.get_player_equipment] *)
Definition get_player_equipment : M (S := World) value :=
  fetch_then equip_endpoint (fun data => lift (
    slots <~ iter data ;;
    xs <~ ids_of slots ;;
    Return (VList xs))).

(** The loop of [test_endpoints] over the endpoints that are left. *)
Fixpoint test_each (endpoints : list string) : M (S := World) bool :=
  match endpoints with
  | [] => ret true
  | i :: rest =>
      ok <- try_except (_ <- do_get i ;; ret true)
              (fun e => match e with
                        | SocketError m ep =>
                            Some (print (get_error m ep) ;;
                                  print ("Endpoint '" ++ i ++ "' is not working.") ;;
                                  ret false)
                        | _ => None
                        end) ;;
      if ok then test_each rest else ret false
  end.

(** [MorgHTTPSocket.test_endpoints]: the attributes between the first
    and the last are the four endpoints, in the order of [__init__]. *)
Definition test_endpoints : M (S := World) bool :=
  test_each [inv_endpoint; stats_endpoint; equip_endpoint; events_endpoint].

End Client.
End MorgHTTPSocket.

(** ** Reading a trace *)

(** The messages handed to the controller's [update_log], in order. *)
Fixpoint log_messages (t : list event) : list string :=
  match t with
  | [] => []
  | Ctl_update_log m _ :: r => m :: log_messages r
  | _ :: r => log_messages r
  end.

Definition is_thread_start (e : event) : bool :=
  match e with Thread_start _ => true | _ => false end.

Definition is_status_seen (s : BotStatus) (e : event) : bool :=
  match e with Ctl_update_status s' => BotStatus_eqb s' s | _ => false end.

Definition is_progress_seen (e : event) : bool :=
  match e with Ctl_update_progress _ => true | _ => false end.

(** The operations on a worker: start, forced-stop request, join. *)
Definition is_worker_op (e : event) : bool :=
  match e with
  | Thread_start _ | Thread_join _ | SetAsyncExc _ _ => true
  | _ => false
  end.

(** The calls that only touch the controller's log. *)
Definition is_log_call (e : event) : bool :=
  match e with
  | Ctl_clear_log | Ctl_update_log _ _ => true
  | _ => false
  end.

Definition is_window_call (e : event) : bool :=
  match e with
  | Win_focus | Win_initialize => true
  | _ => false
  end.

(** [precedes p q t]: some event satisfying [p] comes strictly before
    some event satisfying [q] in [t]. *)
Fixpoint precedes (p q : event -> bool) (t : list event) : bool :=
  match t with
  | [] => false
  | e :: r => ((p e && existsb q r) || precedes p q r)%bool
  end.

(** ** Concrete bots and surroundings used in the examples *)

Definition fresh_bot : BotObj := mkBot false 0 STOPPED None.

Definition configured_bot : BotObj := mkBot true (3 # 4) STOPPED None.

Definition worker7 : BotThreadObj := mkBotThread 7 true true None.

Definition running_bot : BotObj := mkBot true (1 # 4) RUNNING (Some worker7).

Definition configuring_bot : BotObj := mkBot false 0 CONFIGURING None.

Definition linux_env : Env :=
  mkEnv "Linux" [(1, 0%nat); (4242, 7%nat)]%Z 1 None None 7 true.

Definition windows_env (res : Z) : Env :=
  mkEnv "Windows" [(1, 0%nat); (4242, 7%nat)]%Z res None None 7 true.

Definition no_window_env : Env :=
  mkEnv "Linux" [(1, 0%nat)]%Z 1 None
        (Some (WindowInitializationError "Failed to initialize window.")) 7 true.

(** ** The public getters of the client, as one family *)

Inductive getter : Type :=
| Get_hitpoints
| Get_run_energy
| Get_animation
| Get_animation_id
| Get_is_player_idle
| Get_is_player_woodcutting
| Get_is_player_mining
| Get_is_player_smithing
| Get_is_player_fishing
| Get_is_player_fletching
| Get_is_player_cooking
| Get_is_player_casting_magic
| Get_is_player_hunting
| Get_is_player_doing_herblore
| Get_is_player_gem_cutting
| Get_is_player_farming
| Get_is_player_crafting
| Get_skill_level (skill : string)
| Get_skill_xp (skill : string)
| Get_skill_xp_gained (skill : string)
| Wait_til_gained_xp (skill : string) (timeout : Z)
| Get_game_tick
| Get_player_position
| Get_player_region_data
| Get_camera_position
| Get_mouse_position
| Get_interaction_code
| Get_is_in_combat
| Get_npc_hitpoints
| Get_if_item_in_inv (item_id : Z)
| Get_inv_item_indices (id : item_ids)
| Find_item_in_inv (item_id : Z)
| Get_player_equipment.

(** A call of a getter; [fuel] bounds the rounds of the polling loops. *)
Definition call (o : Outside) (fuel : nat) (g : getter) : M (S := World) value :=
  match g with
  | Get_hitpoints => MorgHTTPSocket.get_hitpoints o
  | Get_run_energy => MorgHTTPSocket.get_run_energy o
  | Get_animation => MorgHTTPSocket.get_animation o
  | Get_animation_id => MorgHTTPSocket.get_animation_id o
  | Get_is_player_idle => MorgHTTPSocket.get_is_player_idle o fuel
  | Get_is_player_woodcutting => MorgHTTPSocket.get_is_player_woodcutting o fuel
  | Get_is_player_mining => MorgHTTPSocket.get_is_player_mining o fuel
  | Get_is_player_smithing => MorgHTTPSocket.get_is_player_smithing o fuel
  | Get_is_player_fishing => MorgHTTPSocket.get_is_player_fishing o fuel
  | Get_is_player_fletching => MorgHTTPSocket.get_is_player_fletching o fuel
  | Get_is_player_cooking => MorgHTTPSocket.get_is_player_cooking o fuel
  | Get_is_player_casting_magic => MorgHTTPSocket.get_is_player_casting_magic o fuel
  | Get_is_player_hunting => MorgHTTPSocket.get_is_player_hunting o fuel
  | Get_is_player_doing_herblore => MorgHTTPSocket.get_is_player_doing_herblore o fuel
  | Get_is_player_gem_cutting => MorgHTTPSocket.get_is_player_gem_cutting o fuel
  | Get_is_player_farming => MorgHTTPSocket.get_is_player_farming o fuel
  | Get_is_player_crafting => MorgHTTPSocket.get_is_player_crafting o fuel
  | Get_skill_level skill => MorgHTTPSocket.get_skill_level o skill
  | Get_skill_xp skill => MorgHTTPSocket.get_skill_xp o skill
  | Get_skill_xp_gained skill => MorgHTTPSocket.get_skill_xp_gained o skill
  | Wait_til_gained_xp skill timeout =>
      MorgHTTPSocket.wait_til_gained_xp o fuel skill timeout
  | Get_game_tick => MorgHTTPSocket.get_game_tick o
  | Get_player_position => MorgHTTPSocket.get_player_position o
  | Get_player_region_data => MorgHTTPSocket.get_player_region_data o
  | Get_camera_position => MorgHTTPSocket.get_camera_position o
  | Get_mouse_position => MorgHTTPSocket.get_mouse_position o
  | Get_interaction_code => MorgHTTPSocket.get_interaction_code o
  | Get_is_in_combat => MorgHTTPSocket.get_is_in_combat o
  | Get_npc_hitpoints => MorgHTTPSocket.get_npc_hitpoints o
  | Get_if_item_in_inv item_id => MorgHTTPSocket.get_if_item_in_inv o item_id
  | Get_inv_item_indices id => MorgHTTPSocket.get_inv_item_indices o id
  | Find_item_in_inv item_id => MorgHTTPSocket.find_item_in_inv o item_id
  | Get_player_equipment => MorgHTTPSocket.get_player_equipment o
  end.

(** What the next request of a run gets at an endpoint. *)
Definition next_response (o : Outside) (w : World) (endpoint : string) : http_outcome :=
  net o (List.length (http_log w)) (MorgHTTPSocket.base_endpoint ++ endpoint).

(** A logged request for which [__do_get] raises [SocketError]: a status
    other than 200, or a connection failure. *)
Definition failed_request (x : string * http_outcome) : bool :=
  match snd x with
  | Responded code _ => negb (code =? 200)%Z
  | Failed ConnectionError => true
  | Failed _ => false
  end.

(** The three messages of [__do_get]. *)
Definition msg_unreachable : string := "Unable to reach socket".

Definition msg_not_ready (code : Z) : string :=
  "Endpoint not available, make sure you are fully logged in, status code: "
    ++ str_of_Z code.

Definition msg_bad_status (code : Z) : string :=
  "Unable to reach socket, status code: " ++ str_of_Z code.

(** ** The skill lookup, in the words of its description *)

(** An entry of a stats payload with a name and an integer under
    [field]. *)
Definition stat_entry (field : string) (e : value) : bool :=
  match e with
  | VDict items =>
      match lookup "stat" items, lookup field items with
      | Some _, Some (VInt _) => true
      | _, _ => false
      end
  | _ => false
  end.

(** A stats payload: a list whose entries after the first are stat
    entries. *)
Definition stats_payload (field : string) (data : value) : bool :=
  match data with
  | VList l => forallb (stat_entry field) (tl l)
  | _ => false
  end.

(** The entry is the one of the skill called [name]. *)
Definition named (name : string) (e : value) : bool :=
  match e with
  | VDict items =>
      match lookup "stat" items with
      | Some s => eq_str s name
      | None => false
      end
  | _ => false
  end.

(** The integer under [field], [None] when there is none. *)
Definition field_of (field : string) (e : value) : value :=
  match e with
  | VDict items =>
      match lookup field items with
      | Some (VInt z) => VInt z
      | _ => VNone
      end
  | _ => VNone
  end.

(** Normalise the name; look, among the entries after the first, for the
    first one with that name; give its integer, or [None]. *)
Definition skill_lookup (field skill : string) (data : value) : value :=
  match data with
  | VList l =>
      match find (named (capitalize (lower skill))) (tl l) with
      | Some e => field_of field e
      | None => VNone
      end
  | _ => VNone
  end.

(** ** Concrete surroundings and payloads used in the examples *)

Fixpoint digits (acc : Z) (s : string) : option Z :=
  match s with
  | EmptyString => Some acc
  | String a r =>
      let n := nat_of_ascii a in
      if (Nat.leb 48 n && Nat.leb n 57)%bool
      then digits (10 * acc + Z.of_nat (n - 48))%Z r
      else None
  end.

(** [int] on plain decimal numerals, which is all the examples need. *)
Definition plain_int (s : string) : option Z :=
  match s with
  | EmptyString => None
  | _ => digits 0%Z s
  end.

(** An outside that answers the [n]-th request with the [n]-th element of
    [answers] (connection refused when they are used up) and whose clock
    advances by a quarter of a second at each reading. *)
Definition scripted (answers : list http_outcome) : Outside :=
  mkOutside (fun n _ => nth n answers (Failed ConnectionError))
            (fun n => inject_Z (Z.of_nat n) * (1 # 4))
            plain_int
            (-1)%Z [879; 877]%Z [624; 625]%Z [898]%Z [621; 623]%Z [1248]%Z
            [883; 896]%Z [711]%Z [5208]%Z [363]%Z [886]%Z [2272]%Z [1249]%Z.

Definition empty_world : World := mkWorld [] [] 0.

Definition stat (name : string) (level xp gained : Z) : value :=
  VDict [("stat", VStr name); ("level", VInt level); ("xp", VInt xp);
         ("xp gained", VInt gained)].

Definition sample_stats : value :=
  VList [stat "Attack" 99 13034431 0;
         stat "Attack" 40 37224 10;
         stat "Woodcutting" 61 302288 125;
         stat "Woodcutting" 1 0 0].

(** ** Notions used in the statements *)

(** [BotThread.stop] gets as far as calling the interpreter primitive:
    the platform is one of the two it knows and, on Linux, the thread id
    was found. *)
Definition primitive_reached (env : Env) (t : BotThreadObj) : bool :=
  (String.eqb (system env) "Windows"
   || (String.eqb (system env) "Linux"
       && match BotThread.get_id env t with Some _ => true | None => false end))%bool.


(** A continuation that makes no request. *)
Definition offline (k : value -> M (S := World) value) : Prop :=
  forall d w, http_log (snd (k d w)) = http_log w.


From Stdlib Require Import Sorted.

(** ** Sequences of lifecycle calls *)

Definition is_window_init_error (e : exn) : bool :=
  match e with
  | WindowInitializationError _ => true
  | _ => false
  end.

(** A call made on a bot, by its controller or by its own main loop. *)
Inductive lifecycle_call : Type :=
| Call_play
| Call_stop
| Call_update_progress (p : Q)
| Call_reset_progress
| Call_set_status (s : BotStatus).

Definition perform (env : Env) (c : lifecycle_call) : M (S := Run) unit :=
  match c with
  | Call_play => Bot.play env
  | Call_stop => Bot.stop env
  | Call_update_progress p => Bot.update_progress p
  | Call_reset_progress => Bot.reset_progress
  | Call_set_status s => Bot.set_status s
  end.

(** Calls made one after the other, each in the surroundings it finds.
    A call that raises, or a [stop] that stays in its join, leaves the
    bot as it is at that point; the next call goes on from there. *)
Fixpoint perform_all (calls : list (Env * lifecycle_call)) (r : Run) : Run :=
  match calls with
  | [] => r
  | (env, c) :: rest => perform_all rest (snd (perform env c r))
  end.

Definition sets_status (c : lifecycle_call) : bool :=
  match c with
  | Call_set_status _ => true
  | _ => false
  end.

Definition progress_in_range (b : BotObj) : Prop :=
  (0 <= progress b <= 1)%Q.

(** A running bot holds a started worker. *)
Definition running_has_worker (b : BotObj) : Prop :=
  status b = RUNNING -> exists th, thread b = Some th /\ started th = true.

(** The worker that [play] creates in the surroundings [env]. *)
Definition launched_worker (env : Env) : BotThreadObj :=
  mkBotThread (new_oid env) true true None.

Definition mac_env : Env :=
  mkEnv "Darwin" [(1, 0%nat); (4242, 7%nat)]%Z 1 None None 7 true.

(** The same platform, with a worker that goes on for ever. *)
Definition mac_env_busy_worker : Env :=
  mkEnv "Darwin" [(1, 0%nat); (4242, 7%nat)]%Z 1 None None 7 false.


Definition linux_env_worker_gone : Env :=
  mkEnv "Linux" [(1, 0%nat)]%Z 1 None None 7 true.

Definition window_crash_env : Env :=
  mkEnv "Linux" [(1, 0%nat)]%Z 1 (Some (RuntimeError "no display")) None 7 true.

Definition paused_bot : BotObj := mkBot true (1 # 2) PAUSED None.

(** ** Further notions for the client *)

(** [sep.join(parts)] *)
Fixpoint join (sep : ascii) (parts : list string) : string :=
  match parts with
  | [] => EmptyString
  | [p] => p
  | p :: rest => (p ++ String sep (join sep rest))%string
  end.

(** The number of occurrences of a character. *)
Fixpoint count_char (c : ascii) (s : string) : nat :=
  match s with
  | EmptyString => O
  | String a r => (if Ascii.eqb a c then 1 else 0) + count_char c r
  end.

(** The getters that return [int(data[key])], with their key. *)
Definition int_getter_key (g : getter) : option string :=
  match g with
  | Get_run_energy => Some "run energy"
  | Get_animation => Some "animation"
  | Get_animation_id => Some "animation pose"
  | Get_game_tick => Some "game tick"
  | Get_npc_hitpoints => Some "npc health "
  | _ => None
  end.

(** The getters that poll the state for a second. *)
Definition is_polling (g : getter) : bool :=
  match g with
  | Get_is_player_idle | Get_is_player_woodcutting | Get_is_player_mining
  | Get_is_player_smithing | Get_is_player_fishing | Get_is_player_fletching
  | Get_is_player_cooking | Get_is_player_casting_magic | Get_is_player_hunting
  | Get_is_player_doing_herblore | Get_is_player_gem_cutting
  | Get_is_player_farming | Get_is_player_crafting => true
  | _ => false
  end.

(** The endpoint read by a getter that makes one request. *)
Definition endpoint_of (g : getter) : option string :=
  match g with
  | Get_hitpoints | Get_run_energy | Get_animation | Get_animation_id
  | Get_game_tick | Get_player_position | Get_player_region_data
  | Get_camera_position | Get_mouse_position | Get_interaction_code
  | Get_is_in_combat | Get_npc_hitpoints => Some MorgHTTPSocket.events_endpoint
  | Get_skill_level _ | Get_skill_xp _ | Get_skill_xp_gained _ =>
      Some MorgHTTPSocket.stats_endpoint
  | Get_if_item_in_inv _ | Get_inv_item_indices _ | Find_item_in_inv _ =>
      Some MorgHTTPSocket.inv_endpoint
  | Get_player_equipment => Some MorgHTTPSocket.equip_endpoint
  | _ => None
  end.

(** The positions, counted from [i], of the elements of a list that
    satisfy [p]. *)
Fixpoint positions_from (p : Z -> bool) (i : Z) (l : list Z) : list Z :=
  match l with
  | [] => []
  | z :: rest => if p z then i :: positions_from p (i + 1)%Z rest
                 else positions_from p (i + 1)%Z rest
  end.

(** The test that [get_inv_item_indices] applies to the id of a slot. *)
Definition wanted (id : item_ids) (z : Z) : bool :=
  match id with
  | OneId n => Z.eqb z n
  | ManyIds l => existsb (Z.eqb z) l
  end.

Definition slot (id quantity : Z) : value :=
  VDict [("id", VInt id); ("quantity", VInt quantity)].

Definition sample_inventory : value :=
  VList [slot 1511 1; slot 526 1; slot 995 2500; slot 1511 1; slot (-1) 0].

(** ** [bot.py]: reading the screen *)

(** The windows, fonts and colours are those of [utilities.window],
    [utilities.ocr] and [utilities.color], which are not among these
    sources; the readers only pass them on.  [region] names the
    attributes of [self.win] that the readers look at. *)
Inductive region : Type :=
| hp_orb_text | prayer_orb_text | run_orb_text | spec_orb_text
| total_xp | mouseover | chat.

Inductive font : Type := PLAIN_11 | PLAIN_12 | BOLD_12.

Inductive color : Type :=
| ORB_GREEN | ORB_RED | WHITE | BLUE
| OFF_CYAN | OFF_GREEN | OFF_ORANGE | OFF_WHITE | OFF_YELLOW
| Other_color (name : string).

(** A colour argument: one colour or a list of colours. *)
Inductive colors : Type :=
| One_color (c : color)
| Colors (l : list color).

(** A [contains] argument: one text or a list of texts. *)
Inductive needle : Type :=
| Text (s : string)
| Texts (l : list string).

(** What is on the screen, as the OCR module reports it:
    [extract_text] is [ocr.extract_text]; [find_text] is the truth value
    of what [ocr.find_text] returns. *)
Record Screen : Type := mkScreen {
  extract_text : region -> font -> colors -> string;
  find_text : needle -> region -> font -> colors -> bool
}.

Definition is_digit (a : ascii) : bool :=
  (Nat.leb 48 (nat_of_ascii a) && Nat.leb (nat_of_ascii a) 57)%bool.

(** [re.findall(r"\d+", s)], on the ASCII digits: the maximal runs of
    digits, from left to right. *)
Fixpoint digit_runs (s : string) : list string :=
  match s with
  | EmptyString => []
  | String a r =>
      if is_digit a then
        match r with
        | String b _ =>
            if is_digit b then
              match digit_runs r with
              | h :: t => String a h :: t
              | [] => [String a EmptyString]
              end
            else String a EmptyString :: digit_runs r
        | EmptyString => [String a EmptyString]
        end
      else digit_runs r
  end.

Module BotReaders.
Section Readers.
Variable o : Outside.
Variable sc : Screen.

(** [Bot.get_hp] *)
Definition get_hp : outcome value :=
  let res := extract_text sc hp_orb_text PLAIN_11 (Colors [ORB_GREEN; ORB_RED]) in
  match digit_runs res with
  | first :: _ => n <~ py_int o (VStr first) ;; Return (VInt n)
  | [] => Return VNone
  end.

(** The body shared by [get_prayer], [get_run_energy] and
    [get_special_energy]: they hand the whole list of matches to
    [int]. *)
Definition orb_reader (where_ : region) : outcome value :=
  let res := extract_text sc where_ PLAIN_11 (Colors [ORB_GREEN; ORB_RED]) in
  match digit_runs res with
  | [] => Return VNone
  | runs => n <~ py_int o (VList (map VStr runs)) ;; Return (VInt n)
  end.

(** [Bot.get_prayer] *)
Definition get_prayer : outcome value := orb_reader prayer_orb_text.

(** [Bot.get_run_energy] *)
Definition get_run_energy : outcome value := orb_reader run_orb_text.

(** [Bot.get_special_energy] *)
Definition get_special_energy : outcome value := orb_reader spec_orb_text.

(** The loop of [get_total_xp] over the fonts that are left. *)
Fixpoint total_xp_with (fonts : list font) : outcome value :=
  match fonts with
  | [] => Return VNone
  | f :: rest =>
      let res := extract_text sc total_xp f (Colors [WHITE]) in
      match digit_runs res with
      | first :: _ => n <~ py_int o (VStr first) ;; Return (VInt n)
      | [] => total_xp_with rest
      end
  end.

(** [Bot.get_total_xp] *)
Definition get_total_xp : outcome value :=
  total_xp_with [PLAIN_11; PLAIN_12; BOLD_12].

(** [Bot.mouseover_text] *)
Definition mouseover_text (contains : option needle) (color : option colors)
  : outcome value :=
  let color :=
    match color with
    | None => Colors [OFF_CYAN; OFF_GREEN; OFF_ORANGE; OFF_WHITE; OFF_YELLOW]
    | Some c => c
    end in
  match contains with
  | None => Return (VStr (extract_text sc mouseover BOLD_12 color))
  | Some c => Return (VBool (find_text sc c mouseover BOLD_12 color))
  end.

(** [Bot.chatbox_text]: without a [return] at its end, the method
    returns [None] when the text is not found. *)
Definition chatbox_text (contains : option string) : outcome value :=
  match contains with
  | None => Return (VStr (extract_text sc chat PLAIN_12 (One_color BLUE)))
  | Some c =>
      if find_text sc (Text c) chat PLAIN_12 (One_color BLUE)
      then Return (VBool true)
      else Return VNone
  end.

End Readers.
End BotReaders.

Fixpoint all_digits (s : string) : bool :=
  match s with
  | EmptyString => true
  | String a r => (is_digit a && all_digits r)%bool
  end.

(** The digits of a string, in order. *)
Fixpoint digits_of (s : string) : string :=
  match s with
  | EmptyString => EmptyString
  | String a r => if is_digit a then String a (digits_of r) else digits_of r
  end.

Definition concat_strings (l : list string) : string :=
  fold_right append EmptyString l.

(** A screen that shows the same text everywhere. *)
Definition screen_showing (text : string) (found : bool) : Screen :=
  mkScreen (fun _ _ _ => text) (fun _ _ _ _ => found).

(** A screen on which the total experience is only legible in the
    second font. *)
Definition screen_xp_second_font : Screen :=
  mkScreen (fun r f _ => match r, f with
                         | total_xp, PLAIN_12 => "XP: 1,234,567"
                         | _, _ => "~~"
                         end)
           (fun _ _ _ _ => false).

(** ** [bot.py]: acting on the client *)

(** [utilities.geometry.Rectangle], of which the methods below use the
    four attributes and [random_point()]. *)
Record Rectangle : Type := mkRect {
  left : Z;
  top : Z;
  width : Z;
  height : Z
}.

(** A keyword argument of [MouseUtils.move_to]. *)
Inductive kwarg : Type :=
| Kw_str (s : string)
| Kw_int (n : Z)
| Kw_fun (name : string).

(** What a method does to the outside, in order: calls on the controller
    (as in the lifecycle), on [pyautogui] ([keyDown], [keyUp], [click]),
    on the mouse ([move_to], [click]), on a rectangle
    ([random_point()]), on the image search and on [time.sleep]. *)
Inductive action : Type :=
| Controller (e : event)
| Key_down (key : string)
| Key_up (key : string)
| Pag_click
| Mouse_click
| Mouse_move_to (x y : Z) (kwargs : list (string * kwarg))
| Took_random_point (r : Rectangle)
| Searched_image (image : string) (r : Rectangle)
| Slept (seconds : Q).

(** What the methods take from the window, the random generator, the
    image search and the float arithmetic of the interpreter:
    [cp_tabs i] is [self.win.cp_tabs[i]] of an initialised window;
    [random_point n r] is what the [n]-th call of [random_point()] gives
    on [r]; [search_img_in_rect] is [imsearch.search_img_in_rect], the
    image named by its path under [BOT_IMAGES]; [zoom_x p r] is
    [int((p / 100) * (r.left + r.width - r.left) + r.left)]. *)
Record Client : Type := mkClient {
  inventory_slots : list Rectangle;
  cp_tabs : nat -> Rectangle;
  control_panel : Rectangle;
  random_point : nat -> Rectangle -> Z * Z;
  search_img_in_rect : string -> Rectangle -> option Rectangle;
  zoom_x : Z -> Rectangle -> Z
}.

(** The state of a run of such a method: the bot, the actions so far
    and the number of random points drawn. *)
Record Desk : Type := mkDesk {
  desk_bot : BotObj;
  acts : list action;
  draws : nat
}.

Definition act (a : action) : M (S := Desk) unit :=
  modify (fun d => mkDesk (desk_bot d) (acts d ++ [a]) (draws d)).

(** A method of the lifecycle, run at the desk: its events are added to
    the actions. *)
Definition lifecycle {A} (c : M (S := Run) A) : M (S := Desk) A :=
  fun d =>
    let (r, run) := c (mkRun (desk_bot d) []) in
    (r, mkDesk (bot run) (acts d ++ map Controller (trace run)) (draws d)).

(** [r.random_point()] *)
Definition take_random_point (c : Client) (r : Rectangle) : M (S := Desk) (Z * Z) :=
  d <- get ;;
  modify (fun d => mkDesk (desk_bot d) (acts d ++ [Took_random_point r]) (S (draws d))) ;;
  ret (random_point c (draws d) r).

(** [list(range(n))] *)
Definition py_range (n : Z) : list Z := map Z.of_nat (seq 0 (Z.to_nat n)).

Fixpoint insert_unique (x : Z) (l : list Z) : list Z :=
  match l with
  | [] => [x]
  | y :: r =>
      if (x <? y)%Z then x :: l
      else if (x =? y)%Z then l
      else y :: insert_unique x r
  end.

(** [np.unique(l)]: the elements of [l], sorted, each once. *)
Definition np_unique (l : list Z) : list Z := fold_right insert_unique [] l.

Module BotActions.
Section Actions.
Variable c : Client.

(** [Bot.log_msg], with [overwrite] left at its default. *)
Definition log_msg (msg : string) : M (S := Desk) unit :=
  lifecycle (Bot.log_msg msg false).

(** The keyword arguments of the [move_to] of [drop_inventory]. *)
Definition drop_kwargs : list (string * kwarg) :=
  [("mouseSpeed", Kw_str "fastest"); ("knotsCount", Kw_int 1);
   ("offsetBoundaryY", Kw_int 40); ("offsetBoundaryX", Kw_int 40);
   ("tween", Kw_fun "pytweening.easeInOutQuad")].

(** The loop of [drop_inventory], from the slot of index [i]. *)
Fixpoint drop_slots (skip_slots : list Z) (i : Z) (slots : list Rectangle)
  : M (S := Desk) unit :=
  match slots with
  | [] => ret tt
  | slot :: rest =>
      (if existsb (Z.eqb i) skip_slots then ret tt
       else
         p <- take_random_point c slot ;;
         act (Mouse_move_to (fst p) (snd p) drop_kwargs) ;;
         act Pag_click) ;;
      drop_slots skip_slots (i + 1)%Z rest
  end.

(** [Bot.drop_inventory] *)
Definition drop_inventory (skip_rows : Z) (skip_slots : option (list Z))
  : M (S := Desk) unit :=
  log_msg "Dropping inventory..." ;;
  let skip_slots := match skip_slots with
                    | None => []
                    | Some l => l
                    end in
  let skip_slots :=
    if (skip_rows >? 0)%Z
    then np_unique (py_range (skip_rows * 4) ++ skip_slots)
    else skip_slots in
  act (Key_down "shift") ;;
  drop_slots skip_slots 0%Z (inventory_slots c) ;;
  act (Key_up "shift").

(** [Bot.__open_display_settings] *)
Definition open_display_settings : M (S := Desk) bool :=
  let control_panel := control_panel c in
  p <- take_random_point c (cp_tabs c 11) ;;
  act (Mouse_move_to (fst p) (snd p) []) ;;
  act Mouse_click ;;
  act (Slept (1 # 2)) ;;
  act (Searched_image "cp_settings_display_tab.png" control_panel) ;;
  match search_img_in_rect c "cp_settings_display_tab.png" control_panel with
  | None =>
      log_msg "Could not find the display settings tab." ;;
      ret false
  | Some display_tab =>
      p <- take_random_point c display_tab ;;
      act (Mouse_move_to (fst p) (snd p) []) ;;
      act Mouse_click ;;
      act (Slept (1 # 2)) ;;
      ret true
  end.

(** [Bot.set_camera_zoom] *)
Definition set_camera_zoom (percentage : Z) : M (S := Desk) bool :=
  let percentage :=
    if (percentage <? 1)%Z then 1%Z
    else if (percentage >? 100)%Z then 100%Z
    else percentage in
  log_msg ("Setting camera zoom to " ++ str_of_Z percentage ++ "%...") ;;
  opened <- open_display_settings ;;
  if negb opened then ret false
  else
    let scroll_rect :=
      mkRect (left (control_panel c) + 84) (top (control_panel c) + 146) 102 8 in
    let x := zoom_x c percentage scroll_rect in
    p <- take_random_point c scroll_rect ;;
    act (Mouse_move_to x (snd p) []) ;;
    act Mouse_click ;;
    ret true.

End Actions.
End BotActions.

(** ** What the actions should be, in the words of the docstrings *)

(** The slots that are not skipped: those from row [skip_rows] on (four
    slots to a row) whose index is not in [skip_slots]. *)
Fixpoint kept_slots (skip_rows : Z) (skip_slots : list Z) (i : Z)
                    (slots : list Rectangle) : list Rectangle :=
  match slots with
  | [] => []
  | slot :: rest =>
      if ((i <? 4 * skip_rows)%Z || existsb (Z.eqb i) skip_slots)%bool
      then kept_slots skip_rows skip_slots (i + 1)%Z rest
      else slot :: kept_slots skip_rows skip_slots (i + 1)%Z rest
  end.

(** A move to a random point of each of the given slots, and a click
    there, the first random point being the [n]-th drawn. *)
Fixpoint clicks_on (c : Client) (n : nat) (slots : list Rectangle) : list action :=
  match slots with
  | [] => []
  | slot :: rest =>
      Took_random_point slot
        :: Mouse_move_to (fst (random_point c n slot)) (snd (random_point c n slot))
                         BotActions.drop_kwargs
        :: Pag_click
        :: clicks_on c (S n) rest
  end.

(** The zoom percentage brought into 1..100. *)
Definition zoom_percentage (p : Z) : Z := Z.max 1 (Z.min 100 p).

(** A client with eight inventory slots in two rows. *)
Definition sample_slots : list Rectangle :=
  map (fun k => mkRect (560 + 42 * (k mod 4)) (210 + 36 * (k / 4)) 36 32)
      [0; 1; 2; 3; 4; 5; 6; 7]%Z.

Definition sample_client (tab : option Rectangle) : Client :=
  mkClient sample_slots
           (fun i => mkRect (525 + 33 * Z.of_nat i) 170 30 30)
           (mkRect 550 205 190 260)
           (fun n r => (left r + Z.of_nat n, top r + 1)%Z)
           (fun _ _ => tab)
           (fun p r => (left r + p)%Z).

Definition empty_desk : Desk := mkDesk fresh_bot [] 0.
(** * Theorems *)

Lemma Qlt_bool_iff (x y : Q) : Qlt_bool x y = true <-> (x < y)%Q.
Proof.
  unfold Qlt_bool. rewrite negb_true_iff.
  split; intro H.
  - apply Qnot_le_lt. intro Hle. apply Qle_bool_iff in Hle. congruence.
  - destruct (Qle_bool y x) eqn:E; [|reflexivity].
    apply Qle_bool_iff in E. exfalso. exact (Qlt_not_le _ _ H E).
Qed.

Lemma Qlt_bool_false (x y : Q) : Qlt_bool x y = false <-> (y <= x)%Q.
Proof.
  unfold Qlt_bool. rewrite negb_false_iff. apply Qle_bool_iff.
Qed.

Lemma BotStatus_eqb_eq (a b : BotStatus) : BotStatus_eqb a b = true <-> a = b.
Proof. destruct a, b; simpl; split; intro H; (reflexivity || discriminate). Qed.


(** ** Properties of the lifecycle *)

(** Unfolds a lifecycle method applied to a run whose bot and
    surroundings are given field by field. *)
Ltac run_method :=
  cbv -[app Qlt_bool String.eqb Z.gtb Z.gt Z.le BotThread.get_id async_res system];
  repeat rewrite <- app_assoc; cbn [app];
  try reflexivity.

Section Lifecycle.
Variable env : Env.
Variable t : list event.

Lemma emit_run (e : event) (b : BotObj) :
  emit e (mkRun b t) = (Return tt, mkRun b (t ++ [e])).
Proof. reflexivity. Qed.

(** The trace of a play that goes through, from a stopped bot with
    its options set and a window that can be focused and
    initialised. *)
Lemma play_success_run (b : BotObj) :
  status b = STOPPED -> options_set b = true ->
  win_focus env = None -> win_initialize env = None ->
  Bot.play env (mkRun b t) =
    (Return tt,
     mkRun (mkBot true 0 RUNNING (Some (mkBotThread (new_oid env) true true None)))
           (t ++ [Ctl_clear_log; Ctl_update_log "Starting bot..." false;
                  Win_focus; Time_sleep (1 # 2); Win_initialize;
                  Ctl_update_progress 0; Ctl_update_status RUNNING;
                  Thread_start (new_oid env)])).
Proof.
  destruct b as [os p st th], env as [sy ta ar wf wi no we].
  cbn [status options_set win_focus win_initialize]. intros -> -> -> ->.
  run_method.
Qed.

(** C4.  On a stopped bot whose options are not set, [play] returns
    without raising, leaves every attribute of the bot as it was
    (status [STOPPED], no worker created), performs no operation on a
    worker, and only writes to the log: after the opening lines the one
    message that the options are not set. *)
Theorem play_options_not_set (b : BotObj) :
  status b = STOPPED -> options_set b = false ->
  let r := Bot.play env (mkRun b t) in
  fst r = Return tt /\
  bot (snd r) = b /\
  status (bot (snd r)) = STOPPED /\
  trace (snd r) =
    t ++ [Ctl_clear_log; Ctl_update_log "Starting bot..." false;
          Ctl_update_log "Options not set. Please set options before starting." false] /\
  (exists added, trace (snd r) = t ++ added /\
                 existsb is_worker_op added = false /\
                 forallb is_log_call added = true).
Proof.
  destruct b as [os p st th].
  cbn [status options_set]. intros -> ->.
  run_method.
  repeat split.
  eexists. split; [reflexivity|]. split; reflexivity.
Qed.

(** C5.  On a running bot, [play] returns without raising, leaves every
    attribute of the bot as it was (status, progress and the worker it
    holds), starts no worker, and adds exactly one event: the message
    that the bot is already running. *)
Theorem play_while_running (b : BotObj) :
  status b = RUNNING ->
  Bot.play env (mkRun b t) =
    (Return tt, mkRun b (t ++ [Ctl_update_log "Bot is already running." false])).
Proof.
  destruct b as [os p st th]. cbn [status]. intros ->. reflexivity.
Qed.

(** C3, as amended.  On a stopped bot, [stop] returns without raising,
    leaves the bot as it was, performs no operation on a worker, and
    records two messages: that the script is stopping, then that the bot
    is already stopped. *)
Theorem stop_while_stopped (b : BotObj) :
  status b = STOPPED ->
  Bot.stop env (mkRun b t) =
    (Return tt,
     mkRun b (t ++ [Ctl_update_log "Stopping script." false;
                    Ctl_update_log "Bot is already stopped." false])) /\
  existsb is_worker_op
    [Ctl_update_log "Stopping script." false;
     Ctl_update_log "Bot is already stopped." false] = false.
Proof.
  destruct b as [os p st th]. cbn [status]. intros ->.
  split; [|reflexivity]. run_method.
Qed.

(** C9.  On a stopped bot, whatever the options and the window do,
    [play] first clears the log and writes "Starting bot..."; the window
    is only touched afterwards.  When the options are not set, and when
    the window cannot be initialised, the call returns with the bot
    still stopped and with these two log events, and one message more,
    already made. *)
Theorem play_opens_log_first (b : BotObj) :
  status b = STOPPED ->
  let r := Bot.play env (mkRun b t) in
  (exists rest,
      trace (snd r) =
        t ++ Ctl_clear_log :: Ctl_update_log "Starting bot..." false :: rest) /\
  (options_set b = false ->
     fst r = Return tt /\ status (bot (snd r)) = STOPPED /\
     trace (snd r) =
       t ++ [Ctl_clear_log; Ctl_update_log "Starting bot..." false;
             Ctl_update_log "Options not set. Please set options before starting." false]) /\
  (forall m, options_set b = true -> win_focus env = None ->
     win_initialize env = Some (WindowInitializationError m) ->
     fst r = Return tt /\ status (bot (snd r)) = STOPPED /\
     trace (snd r) =
       t ++ [Ctl_clear_log; Ctl_update_log "Starting bot..." false;
             Win_focus; Time_sleep (1 # 2); Win_initialize;
             Ctl_update_log m false]) /\
  (forall m, options_set b = true ->
     win_focus env = Some (WindowInitializationError m) ->
     fst r = Return tt /\ status (bot (snd r)) = STOPPED /\
     trace (snd r) =
       t ++ [Ctl_clear_log; Ctl_update_log "Starting bot..." false;
             Win_focus; Ctl_update_log m false]).
Proof.
  destruct b as [os p st th], env as [sy ta ar wf wi no we].
  cbn [status options_set win_focus win_initialize]. intros ->.
  split; [|split; [|split]].
  - destruct os; [destruct wf as [[]|]; [..|destruct wi as [[]|]]|];
      run_method; eexists; reflexivity.
  - intros ->. run_method.
    repeat split.
  - intros m -> -> ->. run_method.
    repeat split.
  - intros m -> ->. run_method.
    repeat split.
Qed.

(** C1, as amended.  In a play that goes through, the status is set to
    [RUNNING] and the controller is told before the worker is started:
    the status notification is the last event before the start of the
    worker, which is the last event of the call. *)
Theorem play_notifies_then_starts (b : BotObj) :
  status b = STOPPED -> options_set b = true ->
  win_focus env = None -> win_initialize env = None ->
  let r := Bot.play env (mkRun b t) in
  fst r = Return tt /\
  status (bot (snd r)) = RUNNING /\
  (exists before,
      existsb is_thread_start before = false /\
      trace (snd r) =
        t ++ before ++ [Ctl_update_status RUNNING; Thread_start (new_oid env)]).
Proof.
  intros Hs Ho Hf Hi. rewrite (play_success_run b Hs Ho Hf Hi). cbn [fst snd bot trace status].
  split; [reflexivity|]. split; [reflexivity|].
  exists [Ctl_clear_log; Ctl_update_log "Starting bot..." false;
          Win_focus; Time_sleep (1 # 2); Win_initialize; Ctl_update_progress 0].
  split; reflexivity.
Qed.

(** C6.  [update_progress p] stores 0 for a negative [p], 1 for a [p]
    above 1 and [p] itself otherwise; what it stores lies in [0, 1]; it
    makes one call of the controller's progress callback and nothing
    else.  [reset_progress] stores 0 and makes one such call. *)
Theorem progress_is_clamped (p : Q) (b : BotObj) :
  let r := Bot.update_progress p (mkRun b t) in
  let r0 := Bot.reset_progress (mkRun b t) in
  ((p < 0)%Q -> progress (bot (snd r)) = 0%Q) /\
  ((1 < p)%Q -> progress (bot (snd r)) = 1%Q) /\
  ((0 <= p <= 1)%Q -> progress (bot (snd r)) = p) /\
  (0 <= progress (bot (snd r)) <= 1)%Q /\
  fst r = Return tt /\
  trace (snd r) = t ++ [Ctl_update_progress (progress (bot (snd r)))] /\
  bot (snd r) = with_progress (progress (bot (snd r))) b /\
  r0 = (Return tt, mkRun (with_progress 0 b) (t ++ [Ctl_update_progress 0])).
Proof.
  cbv -[app Qlt_bool Qlt Qle].
  destruct (Qlt_bool p 0) eqn:E0; [|destruct (Qlt_bool 1 p) eqn:E1].
  - apply Qlt_bool_iff in E0.
    repeat split; try reflexivity; try (intros [? ?]); intros;
      try (exfalso; eapply Qlt_irrefl; eapply Qlt_le_trans; eassumption);
      try (exfalso; eapply Qlt_irrefl; eapply Qlt_trans;
           [exact E0 | eapply Qlt_trans; [|eassumption]; reflexivity]);
      try apply Qle_refl; try discriminate.
  - apply Qlt_bool_false in E0. apply Qlt_bool_iff in E1.
    repeat split; try reflexivity; try (intros [? ?]); intros;
      try (exfalso; eapply Qlt_irrefl; eapply Qlt_le_trans; eassumption);
      try (exfalso; eapply Qlt_irrefl; eapply Qle_lt_trans; eassumption);
      try apply Qle_refl; try discriminate.
  - apply Qlt_bool_false in E0. apply Qlt_bool_false in E1.
    repeat split; try reflexivity; try assumption; try (intros [? ?]); intros;
      try (exfalso; eapply Qlt_irrefl; eapply Qlt_le_trans; eassumption);
      try (exfalso; eapply Qlt_irrefl; eapply Qle_lt_trans; eassumption).
Qed.

End Lifecycle.

Section ForcedStop.
Variable env : Env.
Variable t : list event.

(** C7, as amended.  When [BotThread.stop] reaches the interpreter
    primitive, it returns without raising and leaves the bot alone.  If
    the primitive reports more than one thread state modified, the
    pending exception is revoked and the failure is printed.  Otherwise,
    also when it reports zero, nothing is revoked and nothing is
    printed. *)
Theorem forced_stop_outcome (b : BotObj) (th : BotThreadObj) :
  primitive_reached env th = true ->
  let id := BotThread.get_id env th in
  let r := BotThread.stop env th (mkRun b t) in
  fst r = Return tt /\
  bot (snd r) = b /\
  ((async_res env > 1)%Z ->
     trace (snd r) =
       t ++ [SetAsyncExc id (Some SystemExit); SetAsyncExc id None;
             Print "Exception raise failure"]) /\
  ((async_res env <= 1)%Z ->
     trace (snd r) = t ++ [SetAsyncExc id (Some SystemExit)]).
Proof.
  unfold primitive_reached, BotThread.stop, BotThread.inject.
  intros H.
  destruct (String.eqb (system env) "Windows") eqn:EW;
    [|destruct (String.eqb (system env) "Linux") eqn:EL; [|discriminate H];
      destruct (BotThread.get_id env th) as [i|]; [|discriminate H]];
    cbv zeta;
    (destruct (async_res env >? 1)%Z eqn:ER;
     [apply Z.gtb_lt in ER | rewrite Z.gtb_ltb in ER; apply Z.ltb_ge in ER]);
    run_method; repeat split; intros; try reflexivity; lia.
Qed.


End ForcedStop.

(** Whatever the surroundings, [stop] on a bot that is not stopped and
    holds no worker raises after its first message. *)
Lemma stop_without_worker (env : Env) (t : list event) (b : BotObj) :
  status b <> STOPPED -> thread b = None ->
  Bot.stop env (mkRun b t) =
    (Raise (AttributeError "'NoneType' object has no attribute 'stop'"),
     mkRun b (t ++ [Ctl_update_log "Stopping script." false])).
Proof.
  destruct b as [os p st th]. cbn [status thread]. intros Hst ->.
  destruct st; try reflexivity. congruence.
Qed.

(** Two plays in a row: the second finds the bot running and adds one
    message; the worker is the one of the first. *)
Example play_twice :
  let r1 := snd (Bot.play linux_env (mkRun configured_bot [])) in
  let r2 := snd (Bot.play linux_env r1) in
  bot r2 = bot r1 /\
  trace r2 = trace r1 ++ [Ctl_update_log "Bot is already running." false] /\
  List.length (filter is_thread_start (trace r2)) = 1%nat.
Proof. cbv. repeat split. Qed.

(** C2.  A bot that is being configured and never played holds no
    worker; [stop] on it writes "Stopping script." and then fails on the
    attribute access [self.thread.stop]: the exception reaches the
    caller, nothing is joined and the status stays [CONFIGURING]. *)
Theorem stop_without_worker_raises :
  Bot.stop linux_env (mkRun configuring_bot []) =
    (Raise (AttributeError "'NoneType' object has no attribute 'stop'"),
     mkRun configuring_bot [Ctl_update_log "Stopping script." false]).
Proof. reflexivity. Qed.

(** C1, counterexample.  A play that goes through on a stopped,
    configured bot: the controller is told of [RUNNING] while no worker
    has been started yet; the start comes after. *)
Lemma play_notifies_before_start_example :
  let r := Bot.play linux_env (mkRun configured_bot []) in
  status configured_bot = STOPPED /\ options_set configured_bot = true /\
  fst r = Return tt /\
  status (bot (snd r)) = RUNNING /\
  precedes is_thread_start (is_status_seen RUNNING) (trace (snd r)) = false /\
  precedes (is_status_seen RUNNING) is_thread_start (trace (snd r)) = true.
Proof. cbv. repeat split. Qed.

Lemma play_notifies_then_starts_witness :
  let r := Bot.play linux_env (mkRun configured_bot []) in
  fst r = Return tt /\
  status (bot (snd r)) = RUNNING /\
  (exists before,
      existsb is_thread_start before = false /\
      trace (snd r) =
        [] ++ before ++ [Ctl_update_status RUNNING; Thread_start (new_oid linux_env)]).
Proof.
  apply (play_notifies_then_starts linux_env [] configured_bot); reflexivity.
Defined.

(** C3, counterexample.  [stop] on a fresh, stopped bot records two
    messages, not one. *)
Lemma stop_while_stopped_two_messages :
  let r := Bot.stop linux_env (mkRun fresh_bot []) in
  status fresh_bot = STOPPED /\
  log_messages (trace (snd r)) = ["Stopping script."; "Bot is already stopped."] /\
  List.length (log_messages (trace (snd r))) <> 1%nat.
Proof. cbv. repeat split. discriminate. Qed.

Lemma stop_while_stopped_witness :
  Bot.stop linux_env (mkRun fresh_bot []) =
    (Return tt,
     mkRun fresh_bot ([] ++ [Ctl_update_log "Stopping script." false;
                             Ctl_update_log "Bot is already stopped." false])) /\
  existsb is_worker_op
    [Ctl_update_log "Stopping script." false;
     Ctl_update_log "Bot is already stopped." false] = false.
Proof.
  apply (stop_while_stopped linux_env [] fresh_bot). reflexivity.
Defined.

Lemma play_options_not_set_witness :
  let r := Bot.play linux_env (mkRun fresh_bot []) in
  fst r = Return tt /\
  bot (snd r) = fresh_bot /\
  status (bot (snd r)) = STOPPED /\
  trace (snd r) =
    [] ++ [Ctl_clear_log; Ctl_update_log "Starting bot..." false;
           Ctl_update_log "Options not set. Please set options before starting." false] /\
  (exists added, trace (snd r) = [] ++ added /\
                 existsb is_worker_op added = false /\
                 forallb is_log_call added = true).
Proof.
  apply (play_options_not_set linux_env [] fresh_bot); reflexivity.
Defined.

Lemma play_while_running_witness :
  Bot.play linux_env (mkRun running_bot []) =
    (Return tt, mkRun running_bot ([] ++ [Ctl_update_log "Bot is already running." false])).
Proof.
  apply (play_while_running linux_env [] running_bot). reflexivity.
Defined.

Lemma play_opens_log_first_witness :
  let r := Bot.play no_window_env (mkRun configured_bot []) in
  fst r = Return tt /\ status (bot (snd r)) = STOPPED /\
  trace (snd r) =
    [] ++ [Ctl_clear_log; Ctl_update_log "Starting bot..." false;
           Win_focus; Time_sleep (1 # 2); Win_initialize;
           Ctl_update_log "Failed to initialize window." false].
Proof.
  refine (proj1 (proj2 (proj2
            (play_opens_log_first no_window_env [] configured_bot _))) _ _ _ _);
    reflexivity.
Defined.

Lemma progress_is_clamped_witness :
  progress (bot (snd (Bot.update_progress (- (1 # 2)) (mkRun running_bot [])))) = 0%Q /\
  progress (bot (snd (Bot.update_progress (17 # 10) (mkRun running_bot [])))) = 1%Q /\
  progress (bot (snd (Bot.update_progress (2 # 5) (mkRun running_bot [])))) = (2 # 5)%Q.
Proof.
  split; [|split].
  - apply (proj1 (progress_is_clamped [] (- (1 # 2)) running_bot)). reflexivity.
  - apply (proj1 (proj2 (progress_is_clamped [] (17 # 10) running_bot))). reflexivity.
  - apply (proj1 (proj2 (proj2 (progress_is_clamped [] (2 # 5) running_bot)))).
    split; discriminate.
Defined.

(** C7, counterexample.  On Windows, with the worker registered under
    the id 4242, the primitive reports zero thread states modified:
    nothing is printed and nothing is revoked. *)
Lemma forced_stop_zero_not_logged :
  let r := BotThread.stop (windows_env 0) worker7 (mkRun running_bot []) in
  system (windows_env 0) = "Windows" /\ async_res (windows_env 0) = 0%Z /\
  fst r = Return tt /\
  trace (snd r) = [SetAsyncExc (Some 4242%Z) (Some SystemExit)] /\
  existsb (fun e => match e with Print _ => true | _ => false end) (trace (snd r)) = false /\
  existsb (fun e => match e with SetAsyncExc _ None => true | _ => false end)
          (trace (snd r)) = false.
Proof. cbv. repeat split. Qed.

Lemma forced_stop_outcome_witness :
  let id := BotThread.get_id (windows_env 2) worker7 in
  let r := BotThread.stop (windows_env 2) worker7 (mkRun running_bot []) in
  fst r = Return tt /\
  bot (snd r) = running_bot /\
  ((async_res (windows_env 2) > 1)%Z ->
     trace (snd r) =
       [] ++ [SetAsyncExc id (Some SystemExit); SetAsyncExc id None;
              Print "Exception raise failure"]) /\
  ((async_res (windows_env 2) <= 1)%Z ->
     trace (snd r) = [] ++ [SetAsyncExc id (Some SystemExit)]).
Proof.
  apply (forced_stop_outcome (windows_env 2) [] running_bot worker7). reflexivity.
Defined.

(** ** Properties of the telemetry client *)

Section Requests.
Variable o : Outside.

Let sent (w : World) (ep : string) : World :=
  mkWorld (http_log w ++ [((MorgHTTPSocket.base_endpoint ++ ep)%string, next_response o w ep)])
          (stdout w) (clock_reads w).

(** [__do_get], case by case on what the request gets. *)
Lemma do_get_cases (ep : string) (w : World) :
  MorgHTTPSocket.do_get o ep w =
    (match next_response o w ep with
     | Responded code body =>
         if (code =? 200)%Z then
           match body with
           | Some v => Return v
           | None => Raise JSONDecodeError
           end
         else if (code =? 204)%Z then Raise (SocketError (msg_not_ready code) ep)
         else Raise (SocketError (msg_bad_status code) ep)
     | Failed ConnectionError => Raise (SocketError msg_unreachable ep)
     | Failed e => Raise e
     end, sent w ep).
Proof.
  unfold MorgHTTPSocket.do_get, MorgHTTPSocket.requests_get, sent, next_response,
    bind, try_except, get, modify, ret, raise.
  destruct (net o (List.length (http_log w)) (MorgHTTPSocket.base_endpoint ++ ep))
    as [code body|e].
  - destruct (code =? 200)%Z; cbn [negb];
      [destruct body | destruct (code =? 204)%Z]; reflexivity.
  - destruct e; reflexivity.
Qed.



Lemma fetch_unfold (ep : string) (w : World) :
  MorgHTTPSocket.fetch o ep w =
    match MorgHTTPSocket.do_get o ep w with
    | (Return d, w1) => (Return (Some d), w1)
    | (Raise (SocketError m e), w1) =>
        (Return None,
         mkWorld (http_log w1) (stdout w1 ++ [get_error m e]) (clock_reads w1))
    | (Raise e, w1) => (Raise e, w1)
    | (OutOfFuel, w1) => (OutOfFuel, w1)
    end.
Proof.
  unfold MorgHTTPSocket.fetch, try_except, bind, ret.
  destruct (MorgHTTPSocket.do_get o ep w) as [[d|e|] w1]; try reflexivity.
  destruct e; reflexivity.
Qed.

(** The opening of a getter logs exactly one request and gives the
    early [None] when that request failed. *)
Lemma fetch_spec (ep : string) (w : World) :
  exists out,
    snd (MorgHTTPSocket.fetch o ep w) =
      mkWorld (http_log w ++ [((MorgHTTPSocket.base_endpoint ++ ep)%string, next_response o w ep)])
              out (clock_reads w) /\
    (failed_request ((MorgHTTPSocket.base_endpoint ++ ep)%string, next_response o w ep) = true ->
     fst (MorgHTTPSocket.fetch o ep w) = Return None).
Proof.
  rewrite fetch_unfold, do_get_cases.
  unfold failed_request, sent. cbn [snd].
  destruct (next_response o w ep) as [code body|e].
  - destruct (code =? 200)%Z; [destruct body|destruct (code =? 204)%Z];
      cbn; eexists; (split; [reflexivity|]); intro H;
      (discriminate H || reflexivity).
  - destruct e; cbn; eexists; (split; [reflexivity|]); intro H;
      (discriminate H || reflexivity).
Qed.

Lemma fetch_ok (ep : string) (w : World) (data : value) :
  next_response o w ep = Responded 200 (Some data) ->
  MorgHTTPSocket.fetch o ep w =
    (Return (Some data),
     mkWorld (http_log w ++ [((MorgHTTPSocket.base_endpoint ++ ep)%string,
                              Responded 200 (Some data))])
             (stdout w) (clock_reads w)).
Proof.
  intro H. rewrite fetch_unfold, do_get_cases. unfold sent. rewrite H. reflexivity.
Qed.

(** *** Combinators that keep [converts_failures] *)


















(** *** The skill getters *)

Lemma next_stat_find (field name : string) (entries : list value) :
  forallb (stat_entry field) entries = true ->
  MorgHTTPSocket.next_stat o field name entries =
    match find (named name) entries with
    | Some e =>
        match field_of field e with
        | VInt z => Return z
        | _ => Raise StopIteration
        end
    | None => Raise StopIteration
    end /\
  (forall e, find (named name) entries = Some e -> exists z, field_of field e = VInt z).
Proof.
  induction entries as [|e rest IH]; cbn [forallb find MorgHTTPSocket.next_stat].
  - intros _. split; [reflexivity|discriminate].
  - intro H. apply andb_true_iff in H. destruct H as [He Hrest].
    specialize (IH Hrest). destruct IH as [IH1 IH2].
    destruct e as [| | | | | |items]; try discriminate He.
    cbn [stat_entry] in He. cbn [getitem named field_of obind].
    destruct (lookup "stat" items) as [s|]; [|discriminate He].
    destruct (lookup field items) as [[| |z| | | |]|] eqn:Ef; try discriminate He.
    cbn [obind]. destruct (eq_str s name).
    + cbn [py_int field_of]. rewrite Ef. split; [reflexivity|].
      intros e' H. injection H as <-. cbn [field_of]. rewrite Ef. eauto.
    + split; assumption.
Qed.

Lemma skill_getter_lookup (field complaint skill : string) (w : World) (data : value) :
  next_response o w MorgHTTPSocket.stats_endpoint = Responded 200 (Some data) ->
  stats_payload field data = true ->
  fst (MorgHTTPSocket.skill_getter o field complaint skill w) =
    Return (skill_lookup field skill data).
Proof.
  intros Hresp Hpay.
  unfold MorgHTTPSocket.skill_getter, MorgHTTPSocket.fetch_then, bind at 1.
  rewrite (fetch_ok _ _ _ Hresp).
  destruct data as [| | | |l| |]; try discriminate Hpay.
  cbn [stats_payload] in Hpay. cbn [skill_lookup].
  destruct (next_stat_find field (capitalize (lower skill)) (tl l) Hpay) as [H1 H2].
  unfold try_except, bind, lift. cbn [slice_from_1 obind]. rewrite H1.
  destruct (find (named (capitalize (lower skill))) (tl l)) as [e|].
  - destruct (H2 e eq_refl) as [z Hz]. rewrite Hz. reflexivity.
  - reflexivity.
Qed.

(** C10.  On a stats payload, each of the three skill getters returns
    what the lookup described in words returns: the name is lowercased
    and its first letter capitalised, the entries after the first are
    searched in order, the integer of the first entry of that name is
    returned, and [None] when no entry has that name. *)
Theorem skill_getters_lookup (skill : string) (w : World) (data : value) :
  next_response o w MorgHTTPSocket.stats_endpoint = Responded 200 (Some data) ->
  (stats_payload "level" data = true ->
   fst (MorgHTTPSocket.get_skill_level o skill w) =
     Return (skill_lookup "level" skill data)) /\
  (stats_payload "xp" data = true ->
   fst (MorgHTTPSocket.get_skill_xp o skill w) =
     Return (skill_lookup "xp" skill data)) /\
  (stats_payload "xp gained" data = true ->
   fst (MorgHTTPSocket.get_skill_xp_gained o skill w) =
     Return (skill_lookup "xp gained" skill data)).
Proof.
  intro H. repeat split; intro Hp; apply skill_getter_lookup; assumption.
Qed.
End Requests.

(** *** The client on concrete surroundings *)

Example bad_status_message :
  msg_bad_status 500 = "Unable to reach socket, status code: 500".
Proof. reflexivity. Qed.

(** Nothing answers: the getter prints the error, with the endpoint, and
    returns [None]. *)
Example get_hitpoints_unreachable :
  MorgHTTPSocket.get_hitpoints (scripted []) empty_world =
    (Return VNone,
     mkWorld [("http://localhost:8081/events", Failed ConnectionError)]
             ["Unable to reach socket endpoint: 'events'"] 0).
Proof. reflexivity. Qed.

Example get_hitpoints_answered :
  fst (MorgHTTPSocket.get_hitpoints
         (scripted [Responded 200 (Some (VDict [("health", VStr "21/37")]))])
         empty_world) = Return (VTuple [VInt 21; VInt 37]).
Proof. reflexivity. Qed.

(** The second reading of the state fails while the player is still
    idle: the polling getter returns [None]. *)
Example get_is_player_idle_fails_midway :
  fst (MorgHTTPSocket.get_is_player_idle
         (scripted [Responded 200 (Some (VDict [("animation", VInt (-1));
                                                ("animation pose", VInt 808)]));
                    Responded 204 None])
         5 empty_world) = Return VNone.
Proof. reflexivity. Qed.

(** [test_endpoints] answers [False], not [None], at the first endpoint
    that fails. *)
Example test_endpoints_stops_at_failure :
  MorgHTTPSocket.test_endpoints
    (scripted [Responded 200 (Some (VList [])); Responded 204 None]) empty_world =
    (Return false,
     mkWorld [("http://localhost:8081/inv", Responded 200 (Some (VList [])));
              ("http://localhost:8081/stats", Responded 204 None)]
             ["Endpoint not available, make sure you are fully logged in, status code: 204 endpoint: 'stats'";
              "Endpoint 'stats' is not working."] 0).
Proof. reflexivity. Qed.

(** A failure of [requests.get] that is not a [ConnectionError] is not
    caught by [__do_get], nor by the getter. *)
Example get_run_energy_other_failure :
  fst (MorgHTTPSocket.get_run_energy
         (scripted [Failed (RequestFailure "Read timed out.")]) empty_world) =
    Raise (RequestFailure "Read timed out.").
Proof. reflexivity. Qed.

Example normalise_example : capitalize (lower "wOODcutting") = "Woodcutting".
Proof. reflexivity. Qed.

Lemma lower_char_idempotent (a : ascii) : lower_char (lower_char a) = lower_char a.
Proof. destruct a as [[] [] [] [] [] [] [] []]; reflexivity. Qed.

Lemma lower_idempotent (s : string) : lower (lower s) = lower s.
Proof.
  induction s as [|a r IH]; cbn [lower]; [reflexivity|].
  rewrite lower_char_idempotent, IH. reflexivity.
Qed.

(** [wait_til_gained_xp] normalises the name and hands it to
    [get_skill_xp], which normalises it again: the second time changes
    nothing. *)
Lemma normalise_idempotent (s : string) :
  capitalize (lower (capitalize (lower s))) = capitalize (lower s).
Proof.
  destruct s as [|a r]; [reflexivity|].
  cbn [lower capitalize]. rewrite !lower_idempotent. f_equal.
  destruct a as [[] [] [] [] [] [] [] []]; reflexivity.
Qed.

(** The first element of the payload is not searched. *)
Example get_skill_level_skips_first :
  fst (MorgHTTPSocket.get_skill_level
         (scripted [Responded 200 (Some sample_stats)]) "ATTACK" empty_world)
  = Return (VInt 40).
Proof. reflexivity. Qed.

Example get_skill_xp_unknown_name :
  MorgHTTPSocket.get_skill_xp
    (scripted [Responded 200 (Some sample_stats)]) "sailing" empty_world =
    (Return VNone,
     mkWorld [("http://localhost:8081/stats", Responded 200 (Some sample_stats))]
             ["Invalid stat name: Sailing"] 0).
Proof. reflexivity. Qed.



Lemma skill_getters_lookup_witness :
  fst (MorgHTTPSocket.get_skill_level
         (scripted [Responded 200 (Some sample_stats)]) "wOODcutting" empty_world)
    = Return (VInt 61) /\
  fst (MorgHTTPSocket.get_skill_xp
         (scripted [Responded 200 (Some sample_stats)]) "wOODcutting" empty_world)
    = Return (VInt 302288) /\
  fst (MorgHTTPSocket.get_skill_xp_gained
         (scripted [Responded 200 (Some sample_stats)]) "wOODcutting" empty_world)
    = Return (VInt 125).
Proof.
  pose proof (skill_getters_lookup (scripted [Responded 200 (Some sample_stats)])
                "wOODcutting" empty_world sample_stats eq_refl) as [H1 [H2 H3]].
  split; [exact (H1 eq_refl)|split; [exact (H2 eq_refl)|exact (H3 eq_refl)]].
Defined.

(** * Further properties *)

(** ** The lifecycle beyond single calls *)

(** What [play] can do to the bot: nothing, or launch. *)
Lemma play_bot_cases (env : Env) (r : Run) :
  bot (snd (Bot.play env r)) = bot r \/
  bot (snd (Bot.play env r)) = mkBot true 0 RUNNING (Some (launched_worker env)).
Proof.
  destruct r as [[os p st th] t], env as [sy ta ar wf wi no we].
  destruct st; try (left; reflexivity);
    destruct os; try (left; reflexivity);
    destruct wf as [[]|]; try (left; reflexivity);
    destruct wi as [[]|]; try (left; reflexivity);
    right; reflexivity.
Qed.

(** What [stop] can do to the bot: nothing, or set the status to
    [STOPPED]. *)
Lemma stop_bot_cases (env : Env) (r : Run) :
  bot (snd (Bot.stop env r)) = bot r \/
  bot (snd (Bot.stop env r)) = with_status STOPPED (bot r).
Proof.
  destruct r as [[os p st th] t].
  destruct st; try (left; reflexivity);
    (destruct th as [[o d [] a]|]; [| |left; reflexivity]);
    cbv -[app String.eqb Z.gtb BotThread.get_id async_res system worker_ends];
    destruct (String.eqb (system env) "Windows");
    try destruct (String.eqb (system env) "Linux");
    try destruct (BotThread.get_id env _);
    try destruct (async_res env >? 1)%Z;
    try destruct (worker_ends env);
    (left; reflexivity) || (right; reflexivity).
Qed.

Lemma update_progress_range (p : Q) (r : Run) :
  progress_in_range (bot (snd (Bot.update_progress p r))).
Proof.
  destruct r as [b t]. unfold progress_in_range. cbv -[app Qlt_bool Qlt Qle].
  destruct (Qlt_bool p 0) eqn:E0; [split; discriminate|].
  destruct (Qlt_bool 1 p) eqn:E1; [split; discriminate|].
  apply Qlt_bool_false in E0, E1. split; assumption.
Qed.

Lemma perform_keeps_range (env : Env) (c : lifecycle_call) (r : Run) :
  progress_in_range (bot r) -> progress_in_range (bot (snd (perform env c r))).
Proof.
  intro H. destruct c as [| |p| |s]; cbn [perform].
  - destruct (play_bot_cases env r) as [-> | ->]; [exact H|].
    split; discriminate.
  - destruct (stop_bot_cases env r) as [-> | ->]; exact H.
  - apply update_progress_range.
  - split; discriminate.
  - exact H.
Qed.

(** X1.  With real numbers as arguments of [update_progress] and a
    controller whose callbacks return, the progress of a bot stays within
    [0, 1] through any sequence of [play], [stop], [update_progress],
    [reset_progress] and [set_status] calls, in any surroundings, also
    when the window or the stop request raises in some of the calls or a
    join does not come back. *)
Theorem progress_stays_in_range (calls : list (Env * lifecycle_call)) (r : Run) :
  progress_in_range (bot r) ->
  progress_in_range (bot (perform_all calls r)).
Proof.
  revert r. induction calls as [|[env c] rest IH]; intros r H; cbn [perform_all].
  - exact H.
  - apply IH, perform_keeps_range, H.
Qed.

Lemma progress_stays_in_range_witness :
  progress_in_range
    (bot (perform_all [(linux_env, Call_update_progress (7 # 2));
                       (no_window_env, Call_play); (linux_env, Call_stop)]
                      (mkRun configured_bot []))).
Proof.
  apply progress_stays_in_range. split; discriminate.
Defined.

Lemma perform_keeps_worker (env : Env) (c : lifecycle_call) (r : Run) :
  sets_status c = false ->
  running_has_worker (bot r) -> running_has_worker (bot (snd (perform env c r))).
Proof.
  intros Hc H. destruct c as [| |p| |s]; cbn [perform]; try discriminate Hc.
  - destruct (play_bot_cases env r) as [-> | ->]; [exact H|].
    intros _. eexists. split; reflexivity.
  - destruct (stop_bot_cases env r) as [-> | ->]; [exact H|].
    intro Hs. destruct (bot r); discriminate Hs.
  - destruct r as [[os q st th] t]. exact H.
  - destruct r as [[os q st th] t]. exact H.
Qed.

(** X2.  With a controller whose callbacks return and a thread that
    starts when asked to: as long as nobody overwrites the status with
    [set_status], a running bot always holds a started worker.  The
    property holds for a new bot and is kept by [play], [stop],
    [update_progress] and [reset_progress], in any surroundings, also
    when the window or the stop request raises or a join does not come
    back. *)
Theorem running_bot_keeps_worker (calls : list (Env * lifecycle_call)) (r : Run) :
  forallb (fun ec => negb (sets_status (snd ec))) calls = true ->
  running_has_worker (bot r) ->
  running_has_worker (bot (perform_all calls r)).
Proof.
  revert r. induction calls as [|[env c] rest IH]; intros r Hc H; cbn [perform_all].
  - exact H.
  - cbn [forallb snd] in Hc. apply andb_true_iff in Hc. destruct Hc as [Hc Hrest].
    apply negb_true_iff in Hc.
    apply IH; [exact Hrest|]. apply perform_keeps_worker; assumption.
Qed.

Lemma running_bot_keeps_worker_witness :
  running_has_worker
    (bot (perform_all [(linux_env, Call_play); (linux_env, Call_play);
                       (linux_env_worker_gone, Call_stop)]
                      (mkRun configured_bot []))).
Proof.
  apply running_bot_keeps_worker; [reflexivity|].
  intro H. discriminate H.
Defined.



(** X4.  [play] only acts on a stopped or a running bot: in the states
    [PAUSED], [CONFIGURING] and [CONFIGURED] it does nothing at all, not
    even a log message. *)
Theorem play_ignored_elsewhere (env : Env) (r : Run) :
  status (bot r) <> STOPPED -> status (bot r) <> RUNNING ->
  Bot.play env r = (Return tt, r).
Proof.
  destruct r as [[os p st th] t]. cbn [bot status]. intros H1 H2.
  destruct st; try reflexivity; congruence.
Qed.

Lemma play_ignored_elsewhere_witness :
  Bot.play linux_env (mkRun paused_bot []) = (Return tt, mkRun paused_bot []).
Proof.
  apply play_ignored_elsewhere; discriminate.
Defined.

(** X5.  [play] only handles [WindowInitializationError].  Any other
    exception of the window's [focus()] reaches the caller, after the log
    was cleared and reopened; the bot is left as it was, still stopped and
    without a worker started. *)
Theorem play_window_crash (env : Env) (t : list event) (b : BotObj) (e : exn) :
  status b = STOPPED -> options_set b = true ->
  win_focus env = Some e -> is_window_init_error e = false ->
  Bot.play env (mkRun b t) =
    (Raise e,
     mkRun b (t ++ [Ctl_clear_log; Ctl_update_log "Starting bot..." false; Win_focus])).
Proof.
  destruct b as [os p st th], env as [sy ta ar wf wi no we].
  cbn [status options_set win_focus]. intros -> -> -> He.
  destruct e; try discriminate He; run_method.
Qed.

Lemma play_window_crash_witness :
  Bot.play window_crash_env (mkRun configured_bot []) =
    (Raise (RuntimeError "no display"),
     mkRun configured_bot
           ([] ++ [Ctl_clear_log; Ctl_update_log "Starting bot..." false; Win_focus])).
Proof.
  apply play_window_crash; reflexivity.
Defined.

(** X6.  On Linux, when the worker is no longer in [threading._active]
    (it has finished on its own), [stop] on a bot that is not stopped
    raises [TypeError] after its first message: the primitive is not
    called, the worker is not joined and the status is not changed. *)
Theorem stop_finished_worker_linux (env : Env) (t : list event) (b : BotObj)
        (th : BotThreadObj) :
  status b <> STOPPED -> thread b = Some th ->
  system env = "Linux" -> BotThread.get_id env th = None ->
  Bot.stop env (mkRun b t) =
    (Raise (TypeError "an integer is required (got type NoneType)"),
     mkRun b (t ++ [Ctl_update_log "Stopping script." false])).
Proof.
  destruct b as [os p st thr]. cbn [status thread]. intros Hst -> Hsys Hid.
  assert (Est : BotStatus_eqb st STOPPED = false).
  { destruct st; try reflexivity. congruence. }
  unfold Bot.stop, Bot.log_msg, self, emit, modify, get, bind, ret, raise, BotThread.stop.
  cbn [bot status thread trace]. rewrite Est, Hsys, Hid. reflexivity.
Qed.

Lemma stop_finished_worker_linux_witness :
  Bot.stop linux_env_worker_gone (mkRun running_bot []) =
    (Raise (TypeError "an integer is required (got type NoneType)"),
     mkRun running_bot ([] ++ [Ctl_update_log "Stopping script." false])).
Proof.
  apply (stop_finished_worker_linux linux_env_worker_gone [] running_bot worker7);
    (reflexivity || discriminate).
Defined.

(** X7.  On a platform that is neither Windows nor Linux, [stop] sends
    no stop request to the worker at all: after its message it goes
    straight to the join.  If the worker ends on its own, the join comes
    back and the status is set to [STOPPED]; if it never ends, [stop]
    does not come back and the status is not changed. *)
Theorem stop_unsupported_platform (env : Env) (t : list event) (b : BotObj)
        (th : BotThreadObj) :
  status b <> STOPPED -> thread b = Some th -> started th = true ->
  String.eqb (system env) "Windows" = false ->
  String.eqb (system env) "Linux" = false ->
  (worker_ends env = true ->
   Bot.stop env (mkRun b t) =
     (Return tt,
      mkRun (with_status STOPPED b)
            (t ++ [Ctl_update_log "Stopping script." false;
                   Thread_join (oid th); Ctl_update_status STOPPED]))) /\
  (worker_ends env = false ->
   Bot.stop env (mkRun b t) =
     (OutOfFuel,
      mkRun b (t ++ [Ctl_update_log "Stopping script." false; Thread_join (oid th)]))).
Proof.
  destruct b as [os p st thr], th as [o d s a].
  cbn [status thread started oid]. intros Hst -> -> HW HL.
  assert (Est : BotStatus_eqb st STOPPED = false).
  { destruct st; try reflexivity. congruence. }
  split; intro Hwe;
    unfold Bot.stop, Bot.log_msg, Bot.set_status, set_self, self, emit, modify, get,
      bind, ret, raise, diverge, BotThread.stop, BotThread.join;
    cbn [bot status thread trace started oid]; rewrite Est, HW, HL, Hwe;
    cbn; repeat rewrite <- app_assoc; reflexivity.
Qed.

Lemma stop_unsupported_platform_witness :
  Bot.stop mac_env (mkRun running_bot []) =
    (Return tt,
     mkRun (with_status STOPPED running_bot)
           ([] ++ [Ctl_update_log "Stopping script." false;
                   Thread_join (oid worker7); Ctl_update_status STOPPED])) /\
  Bot.stop mac_env_busy_worker (mkRun running_bot []) =
    (OutOfFuel,
     mkRun running_bot
           ([] ++ [Ctl_update_log "Stopping script." false; Thread_join (oid worker7)])).
Proof.
  split.
  - apply (proj1 (stop_unsupported_platform mac_env [] running_bot worker7
                    ltac:(discriminate) eq_refl eq_refl eq_refl eq_refl)).
    reflexivity.
  - apply (proj2 (stop_unsupported_platform mac_env_busy_worker [] running_bot worker7
                    ltac:(discriminate) eq_refl eq_refl eq_refl eq_refl)).
    reflexivity.
Defined.

(** X8.  The id that [__get_id] finds for a thread without a
    [_thread_id] attribute is one under which this very thread is
    registered in [threading._active]; it finds none exactly when the
    thread is not registered. *)
Theorem get_id_registered (env : Env) (th : BotThreadObj) :
  thread_id_attr th = None ->
  (forall i, BotThread.get_id env th = Some i -> In (i, oid th) (threading_active env)) /\
  (BotThread.get_id env th = None <->
   forall i, ~ In (i, oid th) (threading_active env)).
Proof.
  intro Ha. unfold BotThread.get_id. rewrite Ha.
  destruct (find (fun e => Nat.eqb (snd e) (oid th)) (threading_active env))
    as [[i o]|] eqn:E.
  - apply find_some in E. destruct E as [Hin Heq]. cbn [snd] in Heq.
    apply Nat.eqb_eq in Heq. subst o. split.
    + intros j Hj. injection Hj as <-. exact Hin.
    + split; [discriminate|]. intro H. exfalso. exact (H i Hin).
  - split; [discriminate|]. split; [|reflexivity].
    intros _ i Hin. pose proof (find_none _ _ E _ Hin) as Hn.
    cbn [snd] in Hn. rewrite Nat.eqb_refl in Hn. discriminate.
Qed.

Lemma get_id_registered_witness :
  (forall i, BotThread.get_id linux_env worker7 = Some i ->
             In (i, oid worker7) (threading_active linux_env)) /\
  (BotThread.get_id linux_env worker7 = None <->
   forall i, ~ In (i, oid worker7) (threading_active linux_env)).
Proof.
  apply get_id_registered. reflexivity.
Defined.

(** ** The client beyond failed requests *)

Section Strings.
Variable sep : ascii.

Lemma split_on_not_nil (s : string) : split_on sep s <> [].
Proof.
  destruct s as [|a r]; cbn [split_on]; [discriminate|].
  destruct (Ascii.eqb a sep); [discriminate|].
  destruct (split_on sep r); discriminate.
Qed.

Lemma join_cons (p : string) (rest : list string) :
  rest <> [] -> join sep (p :: rest) = (p ++ String sep (join sep rest))%string.
Proof. destruct rest; [congruence|reflexivity]. Qed.

(** X9.  [split] loses nothing: joining the parts with the separator
    gives the string back; there is one part more than there are
    separators, and no part contains the separator. *)
Theorem split_on_join (s : string) :
  join sep (split_on sep s) = s /\
  List.length (split_on sep s) = S (count_char sep s) /\
  Forall (fun p => count_char sep p = O) (split_on sep s).
Proof.
  induction s as [|a r [IH1 [IH2 IH3]]]; cbn [split_on count_char].
  - repeat split. constructor; [reflexivity|constructor].
  - destruct (Ascii.eqb a sep) eqn:E.
    + apply Ascii.eqb_eq in E. subst a. repeat split.
      * rewrite join_cons by apply split_on_not_nil. rewrite IH1. reflexivity.
      * cbn [List.length]. rewrite IH2. reflexivity.
      * constructor; [reflexivity|exact IH3].
    + pose proof (split_on_not_nil r) as Hn.
      destruct (split_on sep r) as [|h t] eqn:Es; [congruence|].
      repeat split.
      * destruct t as [|h' t'].
        -- cbn [join] in *. rewrite IH1. reflexivity.
        -- rewrite join_cons by discriminate. rewrite join_cons in IH1 by discriminate.
           cbn [append]. rewrite IH1. reflexivity.
      * cbn [List.length] in *. rewrite IH2. reflexivity.
      * inversion IH3 as [|? ? Hh Ht]; subst. constructor; [|exact Ht].
        cbn [count_char]. rewrite E, Hh. reflexivity.
Qed.

Lemma split_on_length (s : string) :
  List.length (split_on sep s) = S (count_char sep s).
Proof.
  induction s as [|a r IH]; cbn [split_on count_char]; [reflexivity|].
  destruct (Ascii.eqb a sep).
  - cbn [List.length]. rewrite IH. reflexivity.
  - pose proof (split_on_not_nil r) as Hn.
    destruct (split_on sep r) as [|h t]; [congruence|].
    cbn [List.length] in *. exact IH.
Qed.

Lemma split_on_whole (s : string) :
  count_char sep s = O -> split_on sep s = [s].
Proof.
  induction s as [|a r IH]; cbn [split_on count_char]; [reflexivity|].
  destruct (Ascii.eqb a sep); [discriminate|]. cbn [Nat.add].
  intro H. rewrite (IH H). reflexivity.
Qed.

Lemma split_on_first (a b : string) :
  count_char sep a = O ->
  split_on sep (a ++ String sep b) = a :: split_on sep b.
Proof.
  induction a as [|c r IH]; cbn [split_on count_char append].
  - intros _. rewrite Ascii.eqb_refl. reflexivity.
  - destruct (Ascii.eqb c sep); [discriminate|]. cbn [Nat.add].
    intro H. rewrite (IH H). reflexivity.
Qed.
End Strings.

Section MoreRequests.
Variable o : Outside.

Lemma fetch_then_ok (ep : string) (k : value -> M (S := World) value)
      (w : World) (data : value) :
  next_response o w ep = Responded 200 (Some data) ->
  MorgHTTPSocket.fetch_then o ep k w =
    k data (mkWorld (http_log w ++ [((MorgHTTPSocket.base_endpoint ++ ep)%string,
                                     Responded 200 (Some data))])
                    (stdout w) (clock_reads w)).
Proof.
  intro H. unfold MorgHTTPSocket.fetch_then, bind.
  rewrite (fetch_ok o ep w data H). reflexivity.
Qed.

(** X10.  [get_hitpoints] on an answer whose ["health"] is a string: a
    string with one slash gives the pair of the integers on its two
    sides; with no slash, or more than one, unpacking fails with
    [ValueError], which reaches the caller. *)
Theorem get_hitpoints_reads_pair (w : World) (data : value) (s : string) :
  next_response o w MorgHTTPSocket.events_endpoint = Responded 200 (Some data) ->
  getitem data "health" = Return (VStr s) ->
  (count_char "/" s <> 1%nat ->
   fst (MorgHTTPSocket.get_hitpoints o w) =
     Raise (ValueError "wrong number of values to unpack (expected 2)")) /\
  (forall a b x y,
      s = (a ++ String "/" b)%string ->
      count_char "/" a = O -> count_char "/" b = O ->
      int_of_str o a = Some x -> int_of_str o b = Some y ->
      fst (MorgHTTPSocket.get_hitpoints o w) = Return (VTuple [VInt x; VInt y])).
Proof.
  intros Hresp Hget. unfold MorgHTTPSocket.get_hitpoints.
  rewrite (fetch_then_ok _ _ _ _ Hresp). unfold lift. cbn [fst].
  rewrite Hget. cbn [obind split_slash]. split.
  - intro Hc. pose proof (split_on_length "/" s) as Hlen.
    destruct (split_on "/" s) as [|p [|q [|q' rest]]]; try reflexivity.
    cbn [List.length] in Hlen. congruence.
  - intros a b x y -> Ha Hb Hx Hy.
    rewrite (split_on_first "/" a b Ha), (split_on_whole "/" b Hb).
    cbn [py_int obind]. rewrite Hx, Hy. reflexivity.
Qed.


(** X11.  The getters that read one integer do not answer [None] on an
    answer that lacks their key: [KeyError] reaches the caller.  When the
    key holds an integer, they return it. *)
Theorem int_getters_by_key (fuel : nat) (g : getter) (key : string) (w : World)
        (items : list (string * value)) :
  int_getter_key g = Some key ->
  next_response o w MorgHTTPSocket.events_endpoint = Responded 200 (Some (VDict items)) ->
  (lookup key items = None -> fst (call o fuel g w) = Raise (KeyError key)) /\
  (forall z, lookup key items = Some (VInt z) -> fst (call o fuel g w) = Return (VInt z)).
Proof.
  intros Hg Hresp.
  destruct g; try discriminate Hg; injection Hg as <-; cbn [call];
    unfold MorgHTTPSocket.get_run_energy, MorgHTTPSocket.get_animation,
      MorgHTTPSocket.get_animation_id, MorgHTTPSocket.get_game_tick,
      MorgHTTPSocket.get_npc_hitpoints;
    rewrite (fetch_then_ok _ _ _ _ Hresp); unfold lift, MorgHTTPSocket.int_at;
    cbn [fst getitem]; (split; [intros ->|intros z ->]); reflexivity.
Qed.

End MoreRequests.

Lemma get_hitpoints_reads_pair_witness :
  fst (MorgHTTPSocket.get_hitpoints
         (scripted [Responded 200 (Some (VDict [("health", VStr "21/37")]))])
         empty_world) = Return (VTuple [VInt 21; VInt 37]) /\
  fst (MorgHTTPSocket.get_hitpoints
         (scripted [Responded 200 (Some (VDict [("health", VStr "21")]))])
         empty_world) = Raise (ValueError "wrong number of values to unpack (expected 2)").
Proof.
  split.
  - apply (proj2 (get_hitpoints_reads_pair
                    (scripted [Responded 200 (Some (VDict [("health", VStr "21/37")]))])
                    empty_world (VDict [("health", VStr "21/37")]) "21/37"
                    eq_refl eq_refl) "21" "37" 21%Z 37%Z); reflexivity.
  - apply (proj1 (get_hitpoints_reads_pair
                    (scripted [Responded 200 (Some (VDict [("health", VStr "21")]))])
                    empty_world (VDict [("health", VStr "21")]) "21"
                    eq_refl eq_refl)). discriminate.
Defined.

Lemma int_getters_by_key_witness :
  fst (call (scripted [Responded 200 (Some (VDict [("animation", VInt 879)]))])
            0 Get_run_energy empty_world) = Raise (KeyError "run energy") /\
  fst (call (scripted [Responded 200 (Some (VDict [("animation", VInt 879)]))])
            0 Get_animation empty_world) = Return (VInt 879).
Proof.
  split.
  - apply (proj1 (int_getters_by_key
                    (scripted [Responded 200 (Some (VDict [("animation", VInt 879)]))])
                    0%nat Get_run_energy "run energy" empty_world
                    [("animation", VInt 879)] eq_refl eq_refl)). reflexivity.
  - apply (proj2 (int_getters_by_key
                    (scripted [Responded 200 (Some (VDict [("animation", VInt 879)]))])
                    0%nat Get_animation "animation" empty_world
                    [("animation", VInt 879)] eq_refl eq_refl)). reflexivity.
Defined.

Section Polling.
Variable o : Outside.

Lemma fetch_some (ep : string) (w w2 : World) (d : value) :
  MorgHTTPSocket.fetch o ep w = (Return (Some d), w2) ->
  next_response o w ep = Responded 200 (Some d) /\
  w2 = mkWorld (http_log w ++ [((MorgHTTPSocket.base_endpoint ++ ep)%string,
                                Responded 200 (Some d))])
               (stdout w) (clock_reads w).
Proof.
  rewrite fetch_unfold, do_get_cases.
  destruct (next_response o w ep) as [code body|e].
  - destruct (code =? 200)%Z eqn:E.
    + apply Z.eqb_eq in E. subst code.
      destruct body; intro H; [|discriminate H].
      injection H as <- <-. split; reflexivity.
    + destruct (code =? 204)%Z; discriminate.
  - destruct e; discriminate.
Qed.

Lemma fetch_clock (ep : string) (w : World) :
  clock_reads (snd (MorgHTTPSocket.fetch o ep w)) = clock_reads w.
Proof.
  destruct (fetch_spec o ep w) as [out [H _]]. rewrite H. reflexivity.
Qed.

Lemma fetch_not_out_of_fuel (ep : string) (w : World) :
  fst (MorgHTTPSocket.fetch o ep w) <> OutOfFuel.
Proof.
  rewrite fetch_unfold, do_get_cases.
  destruct (next_response o w ep) as [code body|e].
  - destruct (code =? 200)%Z; [destruct body|destruct (code =? 204)%Z]; discriminate.
  - destruct e; discriminate.
Qed.

(** One round of the polling loop. *)
Lemma poll_step (fuel : nat) (start_time : Q) (leave : value -> outcome bool) (w : World) :
  MorgHTTPSocket.poll o (S fuel) start_time leave w =
    let w1 := mkWorld (http_log w) (stdout w) (S (clock_reads w)) in
    if Qlt_bool (clock o (clock_reads w) - start_time) 1 then
      match MorgHTTPSocket.fetch o MorgHTTPSocket.events_endpoint w1 with
      | (Return (Some data), w2) =>
          match leave data with
          | Return true => (Return (VBool false), w2)
          | Return false => MorgHTTPSocket.poll o fuel start_time leave w2
          | Raise e => (Raise e, w2)
          | OutOfFuel => (OutOfFuel, w2)
          end
      | (Return None, w2) => (Return VNone, w2)
      | (Raise e, w2) => (Raise e, w2)
      | (OutOfFuel, w2) => (OutOfFuel, w2)
      end
    else (Return (VBool true), w1).
Proof.
  cbn [MorgHTTPSocket.poll].
  unfold bind at 1. unfold MorgHTTPSocket.time_time, bind, get, modify, ret, lift.
  cbv zeta.
  destruct (Qlt_bool (clock o (clock_reads w) - start_time) 1); [|reflexivity].
  destruct (MorgHTTPSocket.fetch o MorgHTTPSocket.events_endpoint _)
    as [[[d|]|e|] w2]; try reflexivity.
  destruct (leave d) as [[]|e|]; reflexivity.
Qed.

Lemma poll_terminates (fuel : nat) :
  forall (start_time : Q) (leave : value -> outcome bool) (w : World) (n : nat),
    (forall d, leave d <> OutOfFuel) ->
    (n < fuel)%nat ->
    (1 <= clock o (clock_reads w + n) - start_time)%Q ->
    fst (MorgHTTPSocket.poll o fuel start_time leave w) <> OutOfFuel.
Proof.
  induction fuel as [|fuel IH]; intros start_time leave w n Hl Hn Hc; [lia|].
  rewrite poll_step. cbv zeta.
  destruct (Qlt_bool (clock o (clock_reads w) - start_time) 1) eqn:E; [|discriminate].
  apply Qlt_bool_iff in E.
  destruct n as [|n].
  { rewrite Nat.add_0_r in Hc. exfalso. exact (Qlt_not_le _ _ E Hc). }
  pose proof (fetch_clock MorgHTTPSocket.events_endpoint
                (mkWorld (http_log w) (stdout w) (S (clock_reads w)))) as Hclk.
  pose proof (fetch_not_out_of_fuel MorgHTTPSocket.events_endpoint
                (mkWorld (http_log w) (stdout w) (S (clock_reads w)))) as Hf.
  destruct (MorgHTTPSocket.fetch o MorgHTTPSocket.events_endpoint _)
    as [[[d|]|e|] w2]; cbn [fst snd clock_reads] in *; try discriminate; try congruence.
  pose proof (Hl d) as Hd.
  destruct (leave d) as [[]|e|]; try discriminate; try congruence.
  apply (IH start_time leave w2 n Hl); [lia|].
  rewrite Hclk. replace (S (clock_reads w) + n)%nat with (clock_reads w + S n)%nat by lia.
  exact Hc.
Qed.

Lemma getitem_total (d : value) (key : string) : getitem d key <> OutOfFuel.
Proof.
  destruct d; cbn [getitem]; try discriminate.
  destruct (lookup key items); discriminate.
Qed.

Lemma animation_not_in_total (ids : list Z) (d : value) :
  MorgHTTPSocket.animation_not_in ids d <> OutOfFuel.
Proof.
  unfold MorgHTTPSocket.animation_not_in.
  pose proof (getitem_total d "animation") as H.
  destruct (getitem d "animation"); cbn [obind]; try discriminate. congruence.
Qed.

Lemma poll_second_terminates (fuel n : nat) (leave : value -> outcome bool) (w : World) :
  (forall d, leave d <> OutOfFuel) ->
  (n < fuel)%nat ->
  (1 <= clock o (S (clock_reads w) + n) - clock o (clock_reads w))%Q ->
  fst (MorgHTTPSocket.poll_second o fuel leave w) <> OutOfFuel.
Proof.
  intros Hl Hn Hc. unfold MorgHTTPSocket.poll_second.
  unfold bind at 1. unfold MorgHTTPSocket.time_time, bind, get, modify, ret.
  apply (poll_terminates fuel _ leave _ n Hl Hn). exact Hc.
Qed.

(** X12.  The polling getters end when the clock moves on.  If one of
    the first [fuel] readings of the clock taken by the loop is a second
    or more after the reading taken at its start, the getter returns or
    raises within [fuel] rounds. *)
Theorem polling_getters_terminate (fuel n : nat) (g : getter) (w : World) :
  is_polling g = true ->
  (n < fuel)%nat ->
  (1 <= clock o (S (clock_reads w) + n) - clock o (clock_reads w))%Q ->
  fst (call o fuel g w) <> OutOfFuel.
Proof.
  intros Hg Hn Hc.
  destruct g; try discriminate Hg; cbn [call];
    apply (poll_second_terminates fuel n _ w); try assumption;
    try apply animation_not_in_total.
  intro d. pose proof (getitem_total d "animation") as H1.
  pose proof (getitem_total d "animation pose") as H2.
  destruct (getitem d "animation") as [a|e|]; cbn [obind]; try discriminate;
    try congruence.
  destruct (negb (eq_int a (IDLE o))); [discriminate|].
  destruct (getitem d "animation pose"); cbn [obind]; try discriminate. congruence.
Qed.

Lemma poll_sound (fuel : nat) :
  forall (start_time : Q) (leave : value -> outcome bool) (w : World),
    let r := MorgHTTPSocket.poll o fuel start_time leave w in
    (fst r = Return (VBool true) ->
     exists added,
       http_log (snd r) = http_log w ++ added /\
       Forall (fun x => exists d, snd x = Responded 200 (Some d) /\ leave d = Return false)
              added) /\
    (fst r = Return (VBool false) ->
     exists added d,
       http_log (snd r) =
         http_log w ++ added
           ++ [((MorgHTTPSocket.base_endpoint ++ MorgHTTPSocket.events_endpoint)%string,
                Responded 200 (Some d))] /\
       leave d = Return true).
Proof.
  induction fuel as [|fuel IH]; intros start_time leave w.
  - cbn. split; discriminate.
  - cbv zeta. rewrite poll_step. cbv zeta.
    destruct (Qlt_bool (clock o (clock_reads w) - start_time) 1).
    2:{ cbn [fst snd http_log]. split; [|discriminate].
        intros _. exists []. rewrite app_nil_r. split; [reflexivity|constructor]. }
    destruct (MorgHTTPSocket.fetch o MorgHTTPSocket.events_endpoint _)
      as [[[d|]|e|] w2] eqn:Ef; cbn [fst snd]; try (split; discriminate).
    apply fetch_some in Ef. destruct Ef as [_ ->].
    cbn [http_log stdout clock_reads].
    destruct (leave d) as [[]|e|] eqn:El; cbn [fst snd http_log];
      try (split; discriminate).
    + split; [discriminate|]. intros _. exists [], d. split; [reflexivity|exact El].
    + specialize (IH start_time leave
                     (mkWorld (http_log w ++
                                 [((MorgHTTPSocket.base_endpoint
                                      ++ MorgHTTPSocket.events_endpoint)%string,
                                   Responded 200 (Some d))])
                              (stdout w) (S (clock_reads w)))).
      cbv zeta in IH. cbn [http_log] in IH. destruct IH as [IHt IHf]. split.
      * intro H. destruct (IHt H) as [added [H1 H2]].
        exists (((MorgHTTPSocket.base_endpoint ++ MorgHTTPSocket.events_endpoint)%string,
                 Responded 200 (Some d)) :: added).
        split; [rewrite H1, <- app_assoc; reflexivity|].
        constructor; [|exact H2]. exists d. split; [reflexivity|exact El].
      * intro H. destruct (IHf H) as [added [d' [H1 H2]]].
        exists (((MorgHTTPSocket.base_endpoint ++ MorgHTTPSocket.events_endpoint)%string,
                 Responded 200 (Some d)) :: added), d'.
        split; [rewrite H1, <- app_assoc; reflexivity|exact H2].
Qed.

(** X13.  What the answers of the polling loop mean.  It answers [True]
    only if every state it fetched was a good answer on which the test to
    leave was false; it answers [False] only if the last state it fetched
    was a good answer on which the test was true. *)
Theorem polling_answers_sound (fuel : nat) (leave : value -> outcome bool) (w : World) :
  let r := MorgHTTPSocket.poll_second o fuel leave w in
  (fst r = Return (VBool true) ->
   exists added,
     http_log (snd r) = http_log w ++ added /\
     Forall (fun x => exists d, snd x = Responded 200 (Some d) /\ leave d = Return false)
            added) /\
  (fst r = Return (VBool false) ->
   exists added d,
     http_log (snd r) =
       http_log w ++ added
         ++ [((MorgHTTPSocket.base_endpoint ++ MorgHTTPSocket.events_endpoint)%string,
              Responded 200 (Some d))] /\
     leave d = Return true).
Proof.
  unfold MorgHTTPSocket.poll_second.
  unfold bind at 1. unfold MorgHTTPSocket.time_time, bind, get, modify, ret.
  exact (poll_sound fuel (clock o (clock_reads w)) leave
           (mkWorld (http_log w) (stdout w) (S (clock_reads w)))).
Qed.

(** *** [test_endpoints] *)

Lemma test_each_step (i : string) (rest : list string) (w : World) :
  MorgHTTPSocket.test_each o (i :: rest) w =
    match MorgHTTPSocket.do_get o i w with
    | (Return _, w1) => MorgHTTPSocket.test_each o rest w1
    | (Raise (SocketError m ep), w1) =>
        (Return false,
         mkWorld (http_log w1)
                 ((stdout w1 ++ [get_error m ep])
                    ++ [("Endpoint '" ++ i ++ "' is not working.")%string])
                 (clock_reads w1))
    | (Raise e, w1) => (Raise e, w1)
    | (OutOfFuel, w1) => (OutOfFuel, w1)
    end.
Proof.
  cbn [MorgHTTPSocket.test_each]. unfold bind, try_except, ret.
  destruct (MorgHTTPSocket.do_get o i w) as [[v|e|] w1]; try reflexivity.
  destruct e; reflexivity.
Qed.

Lemma test_each_true (eps : list string) :
  forall w,
    fst (MorgHTTPSocket.test_each o eps w) = Return true <->
    (forall k, (k < List.length eps)%nat ->
       exists v, net o (List.length (http_log w) + k)
                     (MorgHTTPSocket.base_endpoint ++ nth k eps EmptyString)
                 = Responded 200 (Some v)).
Proof.
  induction eps as [|i rest IH]; intro w.
  - cbn. split; [intros _ k Hk; lia|reflexivity].
  - rewrite test_each_step, do_get_cases.
    unfold next_response.
    destruct (net o (List.length (http_log w)) (MorgHTTPSocket.base_endpoint ++ i))
      as [code body|e] eqn:En.
    + destruct (code =? 200)%Z eqn:E200.
      * apply Z.eqb_eq in E200. subst code. destruct body as [v|].
        -- rewrite IH. cbn [http_log]. rewrite length_app. cbn [List.length].
           split.
           ++ intros H [|k] Hk.
              ** rewrite Nat.add_0_r. cbn [nth]. eauto.
              ** cbn [nth]. cbn [List.length] in Hk.
                 replace (List.length (http_log w) + S k)%nat
                   with (List.length (http_log w) + 1 + k)%nat by lia.
                 apply H. lia.
           ++ intros H k Hk.
              replace (List.length (http_log w) + 1 + k)%nat
                with (List.length (http_log w) + S k)%nat by lia.
              apply (H (S k)). cbn [List.length]. lia.
        -- cbn [fst]. split; [discriminate|].
           intro H. destruct (H 0%nat) as [v Hv]; [cbn; lia|].
           rewrite Nat.add_0_r in Hv. cbn [nth] in Hv. congruence.
      * assert (Hno : forall v, Responded code body <> Responded 200 (Some v)).
        { intros v Hv. injection Hv as -> _. discriminate E200. }
        destruct (code =? 204)%Z; cbn [fst]; (split; [discriminate|]);
          intro H; (destruct (H 0%nat) as [v Hv]; [cbn; lia|]);
          rewrite Nat.add_0_r in Hv; cbn [nth] in Hv; rewrite En in Hv;
          exfalso; exact (Hno v Hv).
    + split.
      * destruct e; discriminate.
      * intro H. destruct (H 0%nat) as [v Hv]; [cbn; lia|].
        rewrite Nat.add_0_r in Hv. cbn [nth] in Hv. congruence.
Qed.

(** X14.  [test_endpoints] answers [True] exactly when the next four
    requests, sent in this order to [inv], [stats], [equip] and [events],
    each get status 200 with a JSON body. *)
Theorem test_endpoints_true_iff (w : World) :
  fst (MorgHTTPSocket.test_endpoints o w) = Return true <->
  (exists v, net o (List.length (http_log w)) "http://localhost:8081/inv"
             = Responded 200 (Some v)) /\
  (exists v, net o (List.length (http_log w) + 1) "http://localhost:8081/stats"
             = Responded 200 (Some v)) /\
  (exists v, net o (List.length (http_log w) + 2) "http://localhost:8081/equip"
             = Responded 200 (Some v)) /\
  (exists v, net o (List.length (http_log w) + 3) "http://localhost:8081/events"
             = Responded 200 (Some v)).
Proof.
  unfold MorgHTTPSocket.test_endpoints. rewrite test_each_true. split.
  - intro H. repeat split.
    + specialize (H 0%nat). rewrite Nat.add_0_r in H. apply H. cbn. lia.
    + apply (H 1%nat). cbn. lia.
    + apply (H 2%nat). cbn. lia.
    + apply (H 3%nat). cbn. lia.
  - intros [H0 [H1 [H2 H3]]] k Hk. cbn [List.length] in Hk.
    destruct k as [|[|[|[|k]]]]; try lia; try assumption.
    rewrite Nat.add_0_r. exact H0.
Qed.
End Polling.

Lemma polling_getters_terminate_witness :
  fst (call (scripted []) 5 Get_is_player_fishing empty_world) <> OutOfFuel.
Proof.
  apply (polling_getters_terminate (scripted []) 5 3 Get_is_player_fishing empty_world);
    [reflexivity|lia|discriminate].
Defined.

Lemma polling_answers_sound_witness :
  exists added d,
    http_log (snd (MorgHTTPSocket.get_is_player_woodcutting
                     (scripted [Responded 200 (Some (VDict [("animation", VInt 879)]));
                                Responded 200 (Some (VDict [("animation", VInt 808)]))])
                     5 empty_world)) =
      http_log empty_world ++ added
        ++ [((MorgHTTPSocket.base_endpoint ++ MorgHTTPSocket.events_endpoint)%string,
             Responded 200 (Some d))] /\
    MorgHTTPSocket.animation_not_in [879; 877]%Z d = Return true.
Proof.
  apply (proj2 (polling_answers_sound
                  (scripted [Responded 200 (Some (VDict [("animation", VInt 879)]));
                             Responded 200 (Some (VDict [("animation", VInt 808)]))])
                  5 (MorgHTTPSocket.animation_not_in [879; 877]%Z) empty_world)).
  reflexivity.
Defined.

(** *** Inventory, experience and the endpoints read *)

Lemma positions_from_spec (p : Z -> bool) (l : list Z) :
  forall i j,
    In j (positions_from p i l) <->
    (i <= j)%Z /\ exists z, nth_error l (Z.to_nat (j - i)) = Some z /\ p z = true.
Proof.
  induction l as [|z rest IH]; intros i j; cbn [positions_from].
  - split; [intros []|]. intros [_ [z [H _]]]. destruct (Z.to_nat (j - i)); discriminate.
  - assert (Hrest : In j (positions_from p (i + 1) rest) <->
                    (i < j)%Z /\ exists z', nth_error (z :: rest) (Z.to_nat (j - i)) = Some z'
                                            /\ p z' = true).
    { rewrite IH. split.
      - intros [Hle [z' [Hn Hp]]]. split; [lia|]. exists z'. split; [|exact Hp].
        replace (Z.to_nat (j - i)) with (S (Z.to_nat (j - (i + 1)))) by lia. exact Hn.
      - intros [Hlt [z' [Hn Hp]]]. split; [lia|]. exists z'. split; [|exact Hp].
        replace (Z.to_nat (j - i)) with (S (Z.to_nat (j - (i + 1)))) in Hn by lia.
        exact Hn. }
    destruct (p z) eqn:Ez.
    + cbn [In]. rewrite Hrest. split.
      * intros [<- | [Hlt H]].
        -- split; [lia|]. exists z. rewrite Z.sub_diag. split; [reflexivity|exact Ez].
        -- split; [lia|exact H].
      * intros [Hle [z' [Hn Hp]]].
        destruct (Z.eq_dec i j) as [->|Hne]; [left; reflexivity|].
        right. split; [lia|]. eauto.
    + rewrite Hrest. split.
      * intros [Hlt H]. split; [lia|exact H].
      * intros [Hle [z' [Hn Hp]]].
        destruct (Z.eq_dec i j) as [->|Hne].
        -- rewrite Z.sub_diag in Hn. cbn in Hn. injection Hn as <-. congruence.
        -- split; [lia|]. eauto.
Qed.

Lemma positions_from_sorted (p : Z -> bool) (l : list Z) :
  forall i, StronglySorted Z.lt (positions_from p i l).
Proof.
  induction l as [|z rest IH]; intro i; cbn [positions_from]; [constructor|].
  destruct (p z); [|apply IH].
  constructor; [apply IH|].
  apply Forall_forall. intros j Hj. apply positions_from_spec in Hj. lia.
Qed.

Section Inventory.
Variable o : Outside.

Lemma any_id_exists (item_id : Z) (slots : list value) (ids : list Z) :
  Forall2 (fun s z => getitem s "id" = Return (VInt z)) slots ids ->
  MorgHTTPSocket.any_id item_id slots = Return (existsb (fun z => Z.eqb z item_id) ids).
Proof.
  induction 1 as [|s z slots ids Hs _ IH]; cbn [MorgHTTPSocket.any_id existsb];
    [reflexivity|].
  rewrite Hs. cbn [obind eq_int]. destruct (Z.eqb z item_id); [reflexivity|exact IH].
Qed.

Lemma select_slots_positions (id : item_ids) (slots : list value) (ids : list Z) :
  Forall2 (fun s z => getitem s "id" = Return (VInt z)) slots ids ->
  forall i,
    MorgHTTPSocket.select_slots
      (match id with
       | OneId n => fun v => eq_int v n
       | ManyIds l => fun v => in_ints v l
       end)
      (fun i _ => Return (VInt i)) i slots
    = Return (map VInt (positions_from (wanted id) i ids)).
Proof.
  induction 1 as [|s z slots ids Hs _ IH]; intro i;
    cbn [MorgHTTPSocket.select_slots positions_from map]; [reflexivity|].
  rewrite Hs. cbn [obind].
  assert (Hk : (match id with
                | OneId n => fun v => eq_int v n
                | ManyIds l => fun v => in_ints v l
                end) (VInt z) = wanted id z).
  { destruct id; reflexivity. }
  rewrite Hk. destruct (wanted id z).
  - cbn [obind]. rewrite IH. reflexivity.
  - apply IH.
Qed.

(** X15.  On an inventory whose slots all carry an integer id,
    [get_inv_item_indices] returns the positions, counted from 0 and in
    increasing order, of exactly the slots whose id is the one asked for
    (or one of those asked for). *)
Theorem inv_item_indices_exact (id : item_ids) (w : World) (slots : list value)
        (ids : list Z) :
  next_response o w MorgHTTPSocket.inv_endpoint = Responded 200 (Some (VList slots)) ->
  Forall2 (fun s z => getitem s "id" = Return (VInt z)) slots ids ->
  exists found,
    fst (MorgHTTPSocket.get_inv_item_indices o id w) = Return (VList (map VInt found)) /\
    StronglySorted Z.lt found /\
    (forall j, In j found <->
               (0 <= j)%Z /\
               exists z, nth_error ids (Z.to_nat j) = Some z /\ wanted id z = true).
Proof.
  intros Hresp Hslots. exists (positions_from (wanted id) 0 ids).
  split; [|split].
  - unfold MorgHTTPSocket.get_inv_item_indices.
    rewrite (fetch_then_ok o _ _ _ _ Hresp). unfold lift. cbn [fst iter obind].
    rewrite (select_slots_positions id slots ids Hslots). reflexivity.
  - apply positions_from_sorted.
  - intro j. rewrite positions_from_spec. rewrite Z.sub_0_r. reflexivity.
Qed.

(** X16.  On such an inventory [get_if_item_in_inv] and
    [get_inv_item_indices] agree: the first answers [True] exactly when
    the second, asked about the same id in the same situation, finds a
    position. *)
Theorem item_in_inv_iff_indices (item_id : Z) (w : World) (slots : list value)
        (ids : list Z) :
  next_response o w MorgHTTPSocket.inv_endpoint = Responded 200 (Some (VList slots)) ->
  Forall2 (fun s z => getitem s "id" = Return (VInt z)) slots ids ->
  exists (b : bool) (found : list Z),
    fst (MorgHTTPSocket.get_if_item_in_inv o item_id w) = Return (VBool b) /\
    fst (MorgHTTPSocket.get_inv_item_indices o (OneId item_id) w)
      = Return (VList (map VInt found)) /\
    (b = true <-> found <> []) /\
    (b = true <-> In item_id ids).
Proof.
  intros Hresp Hslots.
  exists (existsb (fun z => Z.eqb z item_id) ids),
         (positions_from (wanted (OneId item_id)) 0 ids).
  split; [|split; [|split]].
  - unfold MorgHTTPSocket.get_if_item_in_inv.
    rewrite (fetch_then_ok o _ _ _ _ Hresp). unfold lift. cbn [fst iter obind].
    rewrite (any_id_exists item_id slots ids Hslots). reflexivity.
  - unfold MorgHTTPSocket.get_inv_item_indices.
    rewrite (fetch_then_ok o _ _ _ _ Hresp). unfold lift. cbn [fst iter obind].
    rewrite (select_slots_positions (OneId item_id) slots ids Hslots). reflexivity.
  - clear. generalize 0%Z. induction ids as [|z rest IH]; intro i;
      cbn [existsb positions_from wanted].
    + split; [discriminate|congruence].
    + destruct (Z.eqb z item_id); cbn [orb].
      * split; [discriminate|reflexivity].
      * apply IH.
  - rewrite existsb_exists. split.
    + intros [z [Hin Hz]]. apply Z.eqb_eq in Hz. subst z. exact Hin.
    + intro Hin. exists item_id. split; [exact Hin|apply Z.eqb_refl].
Qed.

(** *** [wait_til_gained_xp] *)

Lemma wait_xp_greater (fuel : nat) :
  forall (skill : string) (xp0 : Z) (stop_time : Q) (w : World) (x : Z),
    fst (MorgHTTPSocket.wait_xp o fuel skill xp0 stop_time w) = Return (VInt x) ->
    (xp0 < x)%Z.
Proof.
  induction fuel as [|fuel IH]; intros skill xp0 stop_time w x;
    cbn [MorgHTTPSocket.wait_xp].
  - discriminate.
  - unfold bind at 1. unfold MorgHTTPSocket.time_time, bind, get, modify, ret, lift.
    destruct (Qlt_bool (clock o (clock_reads w)) stop_time); [|discriminate].
    destruct (MorgHTTPSocket.fetch o MorgHTTPSocket.stats_endpoint _)
      as [[[d|]|e|] w2]; try discriminate.
    destruct (_ <~ slice_from_1 d ;; _) as [xp|e|]; try discriminate.
    destruct (xp >? xp0)%Z eqn:E.
    + intro H. injection H as <-. apply Z.gtb_lt in E. exact E.
    + apply IH.
Qed.

(** X17.  When [wait_til_gained_xp] returns an integer, the first
    reading of the skill's experience gave an integer too, and the one
    returned is strictly greater. *)
Theorem wait_til_gained_xp_greater (fuel : nat) (skill : string) (timeout : Z)
        (w : World) (x : Z) :
  fst (MorgHTTPSocket.wait_til_gained_xp o fuel skill timeout w) = Return (VInt x) ->
  exists xp0,
    fst (MorgHTTPSocket.get_skill_xp o (capitalize (lower skill)) w) = Return (VInt xp0) /\
    (xp0 < x)%Z.
Proof.
  unfold MorgHTTPSocket.wait_til_gained_xp. unfold bind at 1.
  destruct (MorgHTTPSocket.get_skill_xp o (capitalize (lower skill)) w)
    as [[v|e|] w1]; try discriminate.
  destruct v; try discriminate.
  unfold bind at 1. unfold MorgHTTPSocket.time_time, bind, get, modify, ret.
  intro H. apply wait_xp_greater in H. exists z. split; [reflexivity|exact H].
Qed.

(** *** One request each *)

Lemma fetch_then_log (ep : string) (k : value -> M (S := World) value) (w : World) :
  offline k ->
  http_log (snd (MorgHTTPSocket.fetch_then o ep k w)) =
    http_log w ++ [((MorgHTTPSocket.base_endpoint ++ ep)%string, next_response o w ep)].
Proof.
  intro Hk. unfold MorgHTTPSocket.fetch_then, bind.
  destruct (fetch_spec o ep w) as [out [Hw _]].
  destruct (MorgHTTPSocket.fetch o ep w) as [[[d|]|e|] w1]; cbn [snd] in *; subst w1;
    try reflexivity.
  rewrite Hk. reflexivity.
Qed.

Lemma lift_offline (f : value -> outcome value) : offline (fun d => lift (f d)).
Proof. intros d w. reflexivity. Qed.

Lemma skill_continuation_offline (field complaint skill : string) :
  offline (fun data =>
    try_except
      (level <- lift (entries <~ slice_from_1 data ;;
                      MorgHTTPSocket.next_stat o field skill entries) ;;
       ret (VInt level))
      (fun e => match e with
                | StopIteration =>
                    Some (MorgHTTPSocket.print (complaint ++ skill) ;; ret VNone)
                | _ => None
                end)).
Proof.
  intros d w. unfold try_except, bind, lift, ret.
  destruct (_ <~ slice_from_1 d ;; _) as [z|[]|]; reflexivity.
Qed.

(** X18.  Every getter that does not poll makes exactly one request per
    call, whatever comes back: the inventory getters to [inv], the
    equipment getter to [equip], the skill getters to [stats] and the
    others to [events]. *)
Theorem getters_make_one_request (fuel : nat) (g : getter) (ep : string) (w : World) :
  endpoint_of g = Some ep ->
  http_log (snd (call o fuel g w)) =
    http_log w ++ [((MorgHTTPSocket.base_endpoint ++ ep)%string, next_response o w ep)].
Proof.
  intro Hg.
  destruct g; try discriminate Hg; injection Hg as <-; cbn [call];
    try (apply fetch_then_log; apply lift_offline);
    apply fetch_then_log; apply skill_continuation_offline.
Qed.

(** *** Skill entries without a name *)

Lemma next_stat_nameless (field skill : string) (before after : list value)
      (bad : value) :
  Forall (fun e => exists s, getitem e "stat" = Return s /\ eq_str s skill = false)
         before ->
  getitem bad "stat" = Raise (KeyError "stat") ->
  MorgHTTPSocket.next_stat o field skill (before ++ bad :: after)
    = Raise (KeyError "stat").
Proof.
  intros Hb Hbad. induction Hb as [|e rest [s [Hs Hne]] _ IH];
    cbn [app MorgHTTPSocket.next_stat].
  - rewrite Hbad. reflexivity.
  - rewrite Hs. cbn [obind]. rewrite Hne. exact IH.
Qed.

(** X19.  A stats payload with an entry that has no ["stat"] key makes
    the skill getters raise [KeyError] when the search reaches that entry,
    that is when no earlier entry (after the first element) bears the
    name; this also holds when a later entry does bear it. *)
Theorem skill_getters_nameless_entry (skill : string) (w : World) (first bad : value)
        (before after : list value) :
  next_response o w MorgHTTPSocket.stats_endpoint
    = Responded 200 (Some (VList (first :: before ++ bad :: after))) ->
  Forall (fun e => exists s, getitem e "stat" = Return s /\
                             eq_str s (capitalize (lower skill)) = false) before ->
  getitem bad "stat" = Raise (KeyError "stat") ->
  fst (MorgHTTPSocket.get_skill_level o skill w) = Raise (KeyError "stat") /\
  fst (MorgHTTPSocket.get_skill_xp o skill w) = Raise (KeyError "stat") /\
  fst (MorgHTTPSocket.get_skill_xp_gained o skill w) = Raise (KeyError "stat").
Proof.
  intros Hresp Hb Hbad.
  unfold MorgHTTPSocket.get_skill_level, MorgHTTPSocket.get_skill_xp,
    MorgHTTPSocket.get_skill_xp_gained, MorgHTTPSocket.skill_getter.
  rewrite !(fetch_then_ok o _ _ _ _ Hresp).
  unfold try_except, bind, lift. cbn [slice_from_1 tl obind].
  rewrite !(next_stat_nameless _ _ before after bad Hb Hbad).
  repeat split.
Qed.
End Inventory.

Lemma inv_item_indices_exact_witness :
  exists found,
    fst (MorgHTTPSocket.get_inv_item_indices
           (scripted [Responded 200 (Some sample_inventory)]) (ManyIds [1511; 995]%Z)
           empty_world) = Return (VList (map VInt found)) /\
    StronglySorted Z.lt found /\
    (forall j, In j found <->
               (0 <= j)%Z /\
               exists z, nth_error [1511; 526; 995; 1511; -1]%Z (Z.to_nat j) = Some z /\
                         wanted (ManyIds [1511; 995]%Z) z = true).
Proof.
  apply (inv_item_indices_exact (scripted [Responded 200 (Some sample_inventory)])
           (ManyIds [1511; 995]%Z) empty_world
           [slot 1511 1; slot 526 1; slot 995 2500; slot 1511 1; slot (-1) 0]).
  - reflexivity.
  - repeat constructor.
Defined.

Example get_inv_item_indices_sample :
  fst (MorgHTTPSocket.get_inv_item_indices
         (scripted [Responded 200 (Some sample_inventory)]) (ManyIds [1511; 995]%Z)
         empty_world) = Return (VList [VInt 0; VInt 2; VInt 3]).
Proof. reflexivity. Qed.

Lemma item_in_inv_iff_indices_witness :
  exists (b : bool) (found : list Z),
    fst (MorgHTTPSocket.get_if_item_in_inv
           (scripted [Responded 200 (Some sample_inventory)]) 526 empty_world)
      = Return (VBool b) /\
    fst (MorgHTTPSocket.get_inv_item_indices
           (scripted [Responded 200 (Some sample_inventory)]) (OneId 526) empty_world)
      = Return (VList (map VInt found)) /\
    (b = true <-> found <> []) /\
    (b = true <-> In 526%Z [1511; 526; 995; 1511; -1]%Z).
Proof.
  apply (item_in_inv_iff_indices (scripted [Responded 200 (Some sample_inventory)])
           526 empty_world
           [slot 1511 1; slot 526 1; slot 995 2500; slot 1511 1; slot (-1) 0]).
  - reflexivity.
  - repeat constructor.
Defined.

Lemma wait_til_gained_xp_greater_witness :
  exists xp0,
    fst (MorgHTTPSocket.get_skill_xp
           (scripted [Responded 200 (Some sample_stats);
                      Responded 200 (Some sample_stats);
                      Responded 200
                        (Some (VList [VNone; stat "Woodcutting" 61 302313 150]))])
           (capitalize (lower "woodcutting")) empty_world) = Return (VInt xp0) /\
    (xp0 < 302313)%Z.
Proof.
  apply (wait_til_gained_xp_greater
           (scripted [Responded 200 (Some sample_stats);
                      Responded 200 (Some sample_stats);
                      Responded 200
                        (Some (VList [VNone; stat "Woodcutting" 61 302313 150]))])
           5 "woodcutting" 10 empty_world 302313).
  reflexivity.
Defined.

Lemma getters_make_one_request_witness :
  http_log (snd (call (scripted [Responded 502 None]) 0 Get_player_equipment empty_world)) =
    http_log empty_world
      ++ [((MorgHTTPSocket.base_endpoint ++ "equip")%string,
           next_response (scripted [Responded 502 None]) empty_world "equip")].
Proof.
  apply (getters_make_one_request (scripted [Responded 502 None]) 0%nat
           Get_player_equipment "equip" empty_world).
  reflexivity.
Defined.

Lemma skill_getters_nameless_entry_witness :
  let payload :=
    VList [VNone; stat "Attack" 40 37224 10; VDict [("level", VInt 3)];
           stat "Woodcutting" 61 302288 125] in
  fst (MorgHTTPSocket.get_skill_level (scripted [Responded 200 (Some payload)])
         "woodcutting" empty_world) = Raise (KeyError "stat") /\
  fst (MorgHTTPSocket.get_skill_xp (scripted [Responded 200 (Some payload)])
         "woodcutting" empty_world) = Raise (KeyError "stat") /\
  fst (MorgHTTPSocket.get_skill_xp_gained (scripted [Responded 200 (Some payload)])
         "woodcutting" empty_world) = Raise (KeyError "stat").
Proof.
  apply (skill_getters_nameless_entry
           (scripted [Responded 200 (Some (VList [VNone; stat "Attack" 40 37224 10;
                                                  VDict [("level", VInt 3)];
                                                  stat "Woodcutting" 61 302288 125]))])
           "woodcutting" empty_world VNone (VDict [("level", VInt 3)])
           [stat "Attack" 40 37224 10] [stat "Woodcutting" 61 302288 125]).
  - reflexivity.
  - constructor; [|constructor]. exists (VStr "Attack"). split; reflexivity.
  - reflexivity.
Defined.

(** ** Reading the screen *)

(** X20.  The matches of [\d+] in a text are non-empty runs of digits,
    and put together they are the digits of the text, in order. *)
Theorem digit_runs_are_the_digits (s : string) :
  concat_strings (digit_runs s) = digits_of s /\
  Forall (fun r => r <> EmptyString /\ all_digits r = true) (digit_runs s).
Proof.
  unfold concat_strings.
  induction s as [|a r [IH1 IH2]]; cbn [digit_runs digits_of].
  - split; [reflexivity|constructor].
  - destruct (is_digit a) eqn:Ea; [|split; assumption].
    destruct r as [|b r'].
    + split; [reflexivity|].
      constructor; [|constructor]. split; [discriminate|]. cbn. rewrite Ea. reflexivity.
    + destruct (is_digit b) eqn:Eb.
      * destruct (digit_runs (String b r')) as [|h t] eqn:Er.
        -- cbn [digits_of fold_right] in IH1. rewrite Eb in IH1. discriminate IH1.
        -- split.
           ++ cbn [fold_right append] in *. rewrite IH1. reflexivity.
           ++ inversion IH2 as [|? ? [Hh1 Hh2] Ht]; subst.
              constructor; [|exact Ht]. split; [discriminate|].
              cbn [all_digits]. rewrite Ea, Hh2. reflexivity.
      * split.
        -- cbn [fold_right append]. rewrite IH1. reflexivity.
        -- constructor; [|exact IH2]. split; [discriminate|].
           cbn. rewrite Ea. reflexivity.
Qed.

Lemma digit_runs_nil_iff (s : string) :
  digit_runs s = [] <-> digits_of s = EmptyString.
Proof.
  induction s as [|a r IH]; cbn [digit_runs digits_of]; [split; reflexivity|].
  destruct (is_digit a); [|exact IH].
  split; [|discriminate].
  destruct r as [|b r']; [discriminate|].
  destruct (is_digit b); [|discriminate].
  destruct (digit_runs (String b r')); discriminate.
Qed.

Section Readers.
Variable o : Outside.
Variable sc : Screen.

(** X21.  [get_hp] returns [None] exactly when the text read from the
    orb has no digit; otherwise it hands the first run of digits to
    [int]. *)
Theorem get_hp_first_run :
  let text := extract_text sc hp_orb_text PLAIN_11 (Colors [ORB_GREEN; ORB_RED]) in
  (BotReaders.get_hp o sc = Return VNone <-> digits_of text = EmptyString) /\
  (digits_of text <> EmptyString ->
   exists first rest,
     digit_runs text = first :: rest /\
     BotReaders.get_hp o sc = (n <~ py_int o (VStr first) ;; Return (VInt n))).
Proof.
  cbv zeta. unfold BotReaders.get_hp.
  set (text := extract_text sc hp_orb_text PLAIN_11 (Colors [ORB_GREEN; ORB_RED])).
  pose proof (digit_runs_nil_iff text) as Hnil.
  destruct (digit_runs text) as [|first rest].
  - split; [|intro H; exfalso; apply H, Hnil; reflexivity].
    split; [intros _; apply Hnil; reflexivity|reflexivity].
  - split.
    + split.
      * cbn [py_int]. destruct (int_of_str o first); discriminate.
      * intro H. apply Hnil in H. discriminate H.
    + intros _. exists first, rest. split; reflexivity.
Qed.

Lemma orb_reader_cases (where_ : region) :
  let text := extract_text sc where_ PLAIN_11 (Colors [ORB_GREEN; ORB_RED]) in
  (digits_of text = EmptyString -> BotReaders.orb_reader o sc where_ = Return VNone) /\
  (digits_of text <> EmptyString ->
   BotReaders.orb_reader o sc where_ =
     Raise (TypeError "int() argument must be a string, a bytes-like object or a real number")) /\
  (forall n, BotReaders.orb_reader o sc where_ <> Return (VInt n)).
Proof.
  cbv zeta. unfold BotReaders.orb_reader.
  set (text := extract_text sc where_ PLAIN_11 (Colors [ORB_GREEN; ORB_RED])).
  pose proof (digit_runs_nil_iff text) as Hnil.
  destruct (digit_runs text) as [|first rest].
  - split; [reflexivity|]. split; [|discriminate].
    intro H. exfalso. apply H, Hnil. reflexivity.
  - split; [|split; [reflexivity|discriminate]].
    intro H. apply Hnil in H. discriminate H.
Qed.

(** X22.  [get_prayer], [get_run_energy] and [get_special_energy] never
    return a number: they return [None] when the text read has no digit,
    and raise [TypeError] when it has one, because they hand the list of
    matches, not a match, to [int]. *)
Theorem orb_readers_never_number (where_ : region) (reader : outcome value) :
  In (where_, reader)
     [(prayer_orb_text, BotReaders.get_prayer o sc);
      (run_orb_text, BotReaders.get_run_energy o sc);
      (spec_orb_text, BotReaders.get_special_energy o sc)] ->
  let text := extract_text sc where_ PLAIN_11 (Colors [ORB_GREEN; ORB_RED]) in
  (digits_of text = EmptyString -> reader = Return VNone) /\
  (digits_of text <> EmptyString ->
   reader =
     Raise (TypeError "int() argument must be a string, a bytes-like object or a real number")) /\
  (forall n, reader <> Return (VInt n)).
Proof.
  intros [H|[H|[H|[]]]]; injection H as <- <-; apply orb_reader_cases.
Qed.

(** X23.  [get_total_xp] tries the fonts [PLAIN_11], [PLAIN_12] and
    [BOLD_12] in this order and stops at the first in which the text has
    a digit: it returns [None] exactly when the text has no digit in any
    of the three, and what the first font shows decides as soon as it has
    a digit. *)
Theorem get_total_xp_font_order :
  let text := fun f => extract_text sc total_xp f (Colors [WHITE]) in
  (BotReaders.get_total_xp o sc = Return VNone <->
   digits_of (text PLAIN_11) = EmptyString /\
   digits_of (text PLAIN_12) = EmptyString /\
   digits_of (text BOLD_12) = EmptyString) /\
  (forall first rest,
      digit_runs (text PLAIN_11) = first :: rest ->
      BotReaders.get_total_xp o sc = (n <~ py_int o (VStr first) ;; Return (VInt n))) /\
  (forall first rest,
      digit_runs (text PLAIN_11) = [] ->
      digit_runs (text PLAIN_12) = first :: rest ->
      BotReaders.get_total_xp o sc = (n <~ py_int o (VStr first) ;; Return (VInt n))).
Proof.
  cbv zeta. unfold BotReaders.get_total_xp. cbn [BotReaders.total_xp_with].
  rewrite <- !digit_runs_nil_iff.
  assert (Hint : forall s, (n <~ py_int o (VStr s) ;; Return (VInt n)) <> Return VNone).
  { intro s. cbn [py_int]. destruct (int_of_str o s); discriminate. }
  split; [|split].
  - destruct (digit_runs (extract_text sc total_xp PLAIN_11 (Colors [WHITE]))) as [|a1 r1].
    + destruct (digit_runs (extract_text sc total_xp PLAIN_12 (Colors [WHITE]))) as [|a2 r2].
      * destruct (digit_runs (extract_text sc total_xp BOLD_12 (Colors [WHITE])))
          as [|a3 r3].
        -- split; [repeat split|reflexivity].
        -- split; [intro H; exfalso; exact (Hint _ H)|intros [_ [_ H]]; discriminate H].
      * split; [intro H; exfalso; exact (Hint _ H)|intros [_ [H _]]; discriminate H].
    + split; [intro H; exfalso; exact (Hint _ H)|intros [H _]; discriminate H].
  - intros first rest ->. reflexivity.
  - intros first rest -> ->. reflexivity.
Qed.

(** X24.  Asked for a text, [chatbox_text] answers [True] or [None],
    never [False]: it returns [None] when the text is not found.
    [mouseover_text] asked for a text always answers with a boolean. *)
Theorem text_search_answers (c : string) (nd : needle) (col : option colors) :
  BotReaders.chatbox_text sc (Some c) <> Return (VBool false) /\
  (find_text sc (Text c) chat PLAIN_12 (One_color BLUE) = false ->
   BotReaders.chatbox_text sc (Some c) = Return VNone) /\
  (find_text sc (Text c) chat PLAIN_12 (One_color BLUE) = true ->
   BotReaders.chatbox_text sc (Some c) = Return (VBool true)) /\
  exists b, BotReaders.mouseover_text sc (Some nd) col = Return (VBool b).
Proof.
  unfold BotReaders.chatbox_text, BotReaders.mouseover_text.
  destruct (find_text sc (Text c) chat PLAIN_12 (One_color BLUE)).
  - repeat split; try discriminate. eexists. reflexivity.
  - repeat split; try discriminate. eexists. reflexivity.
Qed.
End Readers.

Example digit_runs_sample : digit_runs "HP 12/34 (+5)" = ["12"; "34"; "5"].
Proof. reflexivity. Qed.

Lemma get_hp_first_run_witness :
  exists first rest,
    digit_runs (extract_text (screen_showing "12/34" false) hp_orb_text PLAIN_11
                             (Colors [ORB_GREEN; ORB_RED])) = first :: rest /\
    BotReaders.get_hp (scripted []) (screen_showing "12/34" false) =
      (n <~ py_int (scripted []) (VStr first) ;; Return (VInt n)).
Proof.
  apply (proj2 (get_hp_first_run (scripted []) (screen_showing "12/34" false))).
  discriminate.
Defined.

Example get_hp_sample :
  BotReaders.get_hp (scripted []) (screen_showing "12/34" false) = Return (VInt 12).
Proof. reflexivity. Qed.

Lemma orb_readers_never_number_witness :
  BotReaders.get_run_energy (scripted []) (screen_showing "43" false) =
    Raise (TypeError "int() argument must be a string, a bytes-like object or a real number").
Proof.
  apply (proj1 (proj2 (orb_readers_never_number (scripted []) (screen_showing "43" false)
                         run_orb_text _ (or_intror (or_introl eq_refl))))).
  discriminate.
Defined.

Lemma get_total_xp_font_order_witness :
  BotReaders.get_total_xp (scripted []) screen_xp_second_font =
    (n <~ py_int (scripted []) (VStr "1") ;; Return (VInt n)).
Proof.
  apply (proj2 (proj2 (get_total_xp_font_order (scripted []) screen_xp_second_font))
           "1" ["234"; "567"]); reflexivity.
Defined.

Lemma text_search_answers_witness :
  BotReaders.chatbox_text (screen_showing "hello" false) (Some "bye") = Return VNone.
Proof.
  apply (proj1 (proj2 (text_search_answers (screen_showing "hello" false) "bye"
                         (Text "bye") None))).
  reflexivity.
Defined.

(** ** Acting on the client *)

Lemma existsb_insert_unique (x j : Z) (l : list Z) :
  existsb (Z.eqb j) (insert_unique x l) = (Z.eqb j x || existsb (Z.eqb j) l)%bool.
Proof.
  induction l as [|y r IH]; cbn [insert_unique existsb]; [reflexivity|].
  destruct (x <? y)%Z; [reflexivity|].
  destruct (x =? y)%Z eqn:E.
  - apply Z.eqb_eq in E. subst y. cbn [existsb].
    destruct (Z.eqb j x); reflexivity.
  - cbn [existsb]. rewrite IH.
    destruct (Z.eqb j y), (Z.eqb j x); reflexivity.
Qed.

Lemma existsb_np_unique (j : Z) (l : list Z) :
  existsb (Z.eqb j) (np_unique l) = existsb (Z.eqb j) l.
Proof.
  unfold np_unique. induction l as [|x r IH]; cbn [fold_right existsb]; [reflexivity|].
  rewrite existsb_insert_unique, IH. reflexivity.
Qed.

Lemma existsb_py_range (n j : Z) :
  (0 <= j)%Z -> existsb (Z.eqb j) (py_range n) = (j <? n)%Z.
Proof.
  intro Hj. apply Bool.eq_iff_eq_true. rewrite existsb_exists, Z.ltb_lt.
  unfold py_range. split.
  - intros [x [Hin Hx]]. apply Z.eqb_eq in Hx. subst x.
    apply in_map_iff in Hin. destruct Hin as [k [Hk Hin]]. apply in_seq in Hin. lia.
  - intro Hlt. exists j. split; [|apply Z.eqb_refl].
    apply in_map_iff. exists (Z.to_nat j). split; [lia|]. apply in_seq. lia.
Qed.

Section Actions.
Variable c : Client.

Lemma drop_slots_spec (skip_rows : Z) (code_skip skip_slots : list Z) :
  (forall j, (0 <= j)%Z ->
     existsb (Z.eqb j) code_skip
     = ((j <? 4 * skip_rows)%Z || existsb (Z.eqb j) skip_slots)%bool) ->
  forall (slots : list Rectangle) (i : Z) (d : Desk),
    (0 <= i)%Z ->
    BotActions.drop_slots c code_skip i slots d =
      (Return tt,
       mkDesk (desk_bot d)
              (acts d ++ clicks_on c (draws d) (kept_slots skip_rows skip_slots i slots))
              (draws d + List.length (kept_slots skip_rows skip_slots i slots))).
Proof.
  intros Hskip. induction slots as [|slot rest IH]; intros i d Hi;
    cbn [BotActions.drop_slots kept_slots].
  - cbn. rewrite app_nil_r, Nat.add_0_r. destruct d; reflexivity.
  - unfold bind at 1. rewrite (Hskip i Hi).
    destruct ((i <? 4 * skip_rows)%Z || existsb (Z.eqb i) skip_slots)%bool.
    + unfold ret. apply IH. lia.
    + unfold take_random_point, act, bind, get, modify, ret.
      rewrite IH by lia. cbn [desk_bot acts draws clicks_on List.length].
      repeat rewrite <- app_assoc. cbn [app].
      rewrite Nat.add_succ_r. reflexivity.
Qed.

(** X25.  [drop_inventory] holds shift down, clicks once on a random
    point of every slot that is not skipped, in the order of the
    inventory, and releases shift.  A slot is skipped when it lies in one
    of the first [skip_rows] rows of four or when its index is listed in
    [skip_slots]; no other slot is skipped. *)
Theorem drop_inventory_clicks (skip_rows : Z) (skip_slots : option (list Z)) (d : Desk) :
  let listed := match skip_slots with None => [] | Some l => l end in
  let kept := kept_slots skip_rows listed 0 (inventory_slots c) in
  BotActions.drop_inventory c skip_rows skip_slots d =
    (Return tt,
     mkDesk (desk_bot d)
            (acts d
               ++ Controller (Ctl_update_log "Dropping inventory..." false)
               :: Key_down "shift"
               :: clicks_on c (draws d) kept ++ [Key_up "shift"])
            (draws d + List.length kept)).
Proof.
  cbv zeta. unfold BotActions.drop_inventory, BotActions.log_msg, lifecycle.
  set (listed := match skip_slots with None => [] | Some l => l end).
  set (code_skip := if (skip_rows >? 0)%Z
                    then np_unique (py_range (skip_rows * 4) ++ listed)
                    else listed).
  assert (Hskip : forall j, (0 <= j)%Z ->
            existsb (Z.eqb j) code_skip
            = ((j <? 4 * skip_rows)%Z || existsb (Z.eqb j) listed)%bool).
  { intros j Hj. unfold code_skip. destruct (skip_rows >? 0)%Z eqn:E.
    - rewrite existsb_np_unique, existsb_app, existsb_py_range by exact Hj.
      replace (skip_rows * 4)%Z with (4 * skip_rows)%Z by lia. reflexivity.
    - rewrite Z.gtb_ltb in E. apply Z.ltb_ge in E.
      replace (j <? 4 * skip_rows)%Z with false; [reflexivity|].
      symmetry. apply Z.ltb_ge. lia. }
  unfold bind at 1. cbn [Bot.log_msg emit modify trace bot fst snd map app].
  unfold bind at 1. unfold act at 1. unfold modify at 1. cbn [desk_bot acts draws].
  unfold bind at 1.
  rewrite (drop_slots_spec skip_rows code_skip listed Hskip) by lia.
  unfold act, modify. cbn [desk_bot acts draws].
  repeat rewrite <- app_assoc. reflexivity.
Qed.

(** X26.  [set_camera_zoom] brings the percentage into 1..100 before it
    uses it.  When the display tab of the settings is not found it
    returns [False] after one click, on the settings tab, and leaves the
    zoom slider alone; when the tab is found it returns [True] and its
    last click is on the slider, at the abscissa computed from the
    percentage brought into range. *)
Theorem set_camera_zoom_outcomes (percentage : Z) (d : Desk) :
  let p := zoom_percentage percentage in
  let opening :=
    [Controller (Ctl_update_log ("Setting camera zoom to " ++ str_of_Z p ++ "%...") false);
     Took_random_point (cp_tabs c 11);
     Mouse_move_to (fst (random_point c (draws d) (cp_tabs c 11)))
                   (snd (random_point c (draws d) (cp_tabs c 11))) [];
     Mouse_click; Slept (1 # 2);
     Searched_image "cp_settings_display_tab.png" (control_panel c)] in
  let slider :=
    mkRect (left (control_panel c) + 84) (top (control_panel c) + 146) 102 8 in
  (1 <= p <= 100)%Z /\
  (search_img_in_rect c "cp_settings_display_tab.png" (control_panel c) = None ->
   BotActions.set_camera_zoom c percentage d =
     (Return false,
      mkDesk (desk_bot d)
             (acts d ++ opening
                ++ [Controller (Ctl_update_log "Could not find the display settings tab."
                                               false)])
             (S (draws d)))) /\
  (forall tab,
     search_img_in_rect c "cp_settings_display_tab.png" (control_panel c) = Some tab ->
     BotActions.set_camera_zoom c percentage d =
       (Return true,
        mkDesk (desk_bot d)
               (acts d ++ opening
                  ++ [Took_random_point tab;
                      Mouse_move_to (fst (random_point c (S (draws d)) tab))
                                    (snd (random_point c (S (draws d)) tab)) [];
                      Mouse_click; Slept (1 # 2);
                      Took_random_point slider;
                      Mouse_move_to (zoom_x c p slider)
                                    (snd (random_point c (S (S (draws d))) slider)) [];
                      Mouse_click])
               (S (S (S (draws d)))))).
Proof.
  cbv zeta.
  assert (Hp : (if (percentage <? 1)%Z then 1%Z
                else if (percentage >? 100)%Z then 100%Z else percentage)
               = zoom_percentage percentage).
  { unfold zoom_percentage.
    destruct (percentage <? 1)%Z eqn:E1; [apply Z.ltb_lt in E1; lia|].
    apply Z.ltb_ge in E1.
    destruct (percentage >? 100)%Z eqn:E2;
      [apply Z.gtb_lt in E2 | rewrite Z.gtb_ltb in E2; apply Z.ltb_ge in E2]; lia. }
  split; [unfold zoom_percentage; lia|].
  unfold BotActions.set_camera_zoom, BotActions.open_display_settings.
  rewrite Hp. generalize (zoom_percentage percentage) as p. intro p.
  split; [intros Hs|intros tab Hs]; rewrite Hs;
    cbv [BotActions.log_msg lifecycle take_random_point act bind get modify ret
         Bot.log_msg emit desk_bot acts draws bot trace fst snd negb];
    cbn [app map];
    repeat (rewrite <- app_assoc; cbn [app]); reflexivity.
Qed.
End Actions.

Example np_unique_sample : np_unique [7; 0; 3; 7; 1; 0]%Z = [0; 1; 3; 7]%Z.
Proof. reflexivity. Qed.

(** One row and the slot 6 skipped: the slots 4, 5 and 7 are clicked. *)
Example drop_inventory_sample :
  kept_slots 1 [6]%Z 0 sample_slots =
    [mkRect 560 246 36 32; mkRect 602 246 36 32; mkRect 686 246 36 32] /\
  List.length (filter (fun a => match a with Pag_click => true | _ => false end)
                      (acts (snd (BotActions.drop_inventory (sample_client None) 1
                                    (Some [6]%Z) empty_desk)))) = 3%nat.
Proof. split; reflexivity. Qed.

Lemma set_camera_zoom_outcomes_witness :
  BotActions.set_camera_zoom (sample_client None) 250 empty_desk =
    (Return false,
     mkDesk fresh_bot
            ([] ++ [Controller (Ctl_update_log "Setting camera zoom to 100%..." false);
                    Took_random_point (cp_tabs (sample_client None) 11);
                    Mouse_move_to 888 171 [];
                    Mouse_click; Slept (1 # 2);
                    Searched_image "cp_settings_display_tab.png" (mkRect 550 205 190 260)]
                ++ [Controller (Ctl_update_log "Could not find the display settings tab."
                                               false)])
            1).
Proof.
  apply (proj1 (proj2 (set_camera_zoom_outcomes (sample_client None) 250 empty_desk))).
  reflexivity.
Defined.
